(** * y-generic: the protocol coordinator of [GenericProvider]

    A shallow embedding of [src/dist/index.js]: the provider that sits between
    a pluggable transport and a Yjs document, with its digest check and
    exponential backoff, per-sender sequence tracking, sliding-window rate
    limiting of resync requests, update batching, the periodic resync timer and
    the pub/sub channel.

    Conventions of the embedding.
    - A JavaScript number is a [Z]. The counters of the provider stay far
      below 2^53, where the two agree.  A sequence number read from the wire
      can lie above 2^53: the arithmetic of the source on it is rounded as
      binary64 rounds it ([roundNumber]).  The one 32-bit operation of the
      source, the rolling hash, has its wrap-around written out ([toInt32]).
    - A [Uint8Array] is a list of byte values.
    - A frame is embedded after lib0 has decoded it: the constructors of
      [Frame] are the four message kinds, and the places where the decoder of
      the source can throw are constructors or [None] fields of their own.
    - The fields of the class keep their names.  Next to them the record
      carries what the instance touches outside itself: the pending timers,
      the console, the calls made on the transport, the events emitted and the
      pub/sub callbacks invoked.
    - [Date.now()] is an argument [now] of every operation that reads it.
    - Callbacks handed to the provider (listeners, pub/sub subscribers) are
      values of the host program: an invocation is recorded, its body is not
      run.  A pub/sub callback returns or throws ([callback_throws]); no
      callback calls back into the provider. *)

From Stdlib Require Import ZArith Lia Bool.
From stdpp Require Import gmap strings list.

Open Scope Z_scope.

(** ** Wire constants *)

Definition MESSAGE_SYNC : Z := 0.
Definition MESSAGE_AWARENESS : Z := 1.
Definition MESSAGE_PUBSUB : Z := 2.
Definition MESSAGE_SYNC_VERIFIED : Z := 3.

(** The message types of y-protocols/sync. *)
Definition messageYjsSyncStep1 : Z := 0.
Definition messageYjsSyncStep2 : Z := 1.
Definition messageYjsUpdate : Z := 2.

(** ** Data *)

Definition Bytes : Type := list Z.

(** A JSON value travels as its text. *)
Definition Json : Type := string.

(** What a [throw] can carry: an [Error] object or any other value. *)
Inductive JsValue : Type :=
| JsError (message : string)
| JsOther (repr : string).

(** [error instanceof Error ? error : new Error(String(error))] *)
Definition toError (error : JsValue) : JsValue :=
  match error with
  | JsError m => JsError m
  | JsOther r => JsError r
  end.

Inductive ConnectionStatus : Type :=
| Disconnected
| Connecting
| Connected
| Error (e : JsValue).

Record ConnectionConfig : Type := { room : string }.

(** The payload that [syncProtocol.readSyncMessage] reads. *)
Inductive SyncMessage : Type :=
| SyncStep1 (stateVector : Bytes)
| SyncStep2 (update : Bytes)
| YjsUpdate (update : Bytes)
| SyncUndecodable.

Inductive Frame : Type :=
| FSync (m : SyncMessage)
| FAwareness (update : Bytes)
| FPubSub (topic : string) (payload : option Json)
| FSyncVerified (seqNum senderClientID : Z) (m : SyncMessage)
    (expectedHash : option Z)
| FUnknown (messageType : Z)
| FUndecodable.

(** The varint tag a frame starts with. *)
Definition messageType (f : Frame) : option Z :=
  match f with
  | FSync _ => Some MESSAGE_SYNC
  | FAwareness _ => Some MESSAGE_AWARENESS
  | FPubSub _ _ => Some MESSAGE_PUBSUB
  | FSyncVerified _ _ _ _ => Some MESSAGE_SYNC_VERIFIED
  | FUnknown t => Some t
  | FUndecodable => None
  end.

Inductive LogEntry : Type :=
| WarnCannotSync
| WarnDuplicate (sender seqNum lastSeq : Z)
| WarnSequenceGap (sender expected got gap : Z)
| WarnHashMismatch (count localHash expectedHash : Z)
| WarnResyncScheduled (delay : Z)
| WarnRateLimit (maxRequests windowMs : Z)
| WarnUnknownType (tag : Z)
| WarnPubSubNotConnected
| ErrorHandlingMessage
| ErrorDecodingPubSub.

Inductive TimerKind : Type :=
| PeriodicSync
| BatchFlush
| BackoffResync.

Record Timer : Type :=
  { timer_id : Z; timer_kind : TimerKind; timer_delay : Z }.

Inductive TransportCall : Type :=
| CallConnect (config : ConnectionConfig)
| CallDisconnect
| CallSend (data : Frame)
| CallOnMessage
| CallUnsubscribe.

Inductive Emitted : Type :=
| EmitStatus (s : ConnectionStatus)
| EmitSynced (b : bool).

(** A callback that a subscriber hands to [subscribe], as far as the provider
    can tell: a name to tell callbacks apart and, for the message and topic
    it is called with, whether the call throws. *)
Record Callback : Type :=
  { callback_name : Z; callback_throws : Json -> string -> bool }.

(** One ['message'] observer of the pub/sub channel: the closure that
    [subscribe] builds around a topic and a callback. *)
Record Handler : Type :=
  { handler_id : Z; handler_topic : string; handler_callback : Callback }.

(** One invocation [callback(message, receivedTopic)], with the handler that
    made it. *)
Record CallbackCall : Type :=
  { via : Z; called : Z; with_message : Json; with_topic : string }.

Inductive Result : Type :=
| Returned
| Threw (e : JsValue).

(** ** Numbers above 2^53

    lib0's [readVarUint] returns a JavaScript number, an integer that binary64
    holds exactly; when the last byte of a varint carries it over 2^53 the
    value is returned all the same.  [roundNumber z] is the binary64 value
    nearest to the integer [z], ties to the even significand: the value of
    an arithmetic operation whose exact result is [z].  Values near 2^1024
    do not arise. *)
Definition roundNumber (z : Z) : Z :=
  let a := Z.abs z in
  if a <? 2 ^ 53 then z
  else
    let ulp := 2 ^ (Z.log2 a - 52) in
    let m := a / ulp in
    let r := a mod ulp in
    let m :=
      if 2 * r <? ulp then m
      else if ulp <? 2 * r then m + 1
      else if Z.even m then m else m + 1 in
    Z.sgn z * (m * ulp).

(** [a + b] and [a - b] on numbers. *)
Definition number_add (a b : Z) : Z := roundNumber (a + b).
Definition number_sub (a b : Z) : Z := roundNumber (a - b).

(** ** The rolling hash of [computeDocHash] *)

(** [| 0] and the result of [<<]: reduction to a signed 32-bit integer. *)
Definition toInt32 (z : Z) : Z := (z + 2 ^ 31) mod 2 ^ 32 - 2 ^ 31.

(** [hash = ((hash << 5) - hash + state[i]) | 0] *)
Definition hashStep (hash byte : Z) : Z :=
  toInt32 (toInt32 (Z.shiftl hash 5) - hash + byte).

Definition hashBytes (state : Bytes) : Z := fold_left hashStep state 0.

(** ** Reading a list of frames *)

(** The sequence numbers stamped on the verified frames of a list. *)
Definition verifiedSeqNums (l : list Frame) : list Z :=
  flat_map
    (fun f => match f with FSyncVerified n _ _ _ => [n] | _ => [] end) l.

(** [0; 1; ...; n - 1] *)
Definition upto (n : Z) : list Z := map Z.of_nat (seq 0 (Z.to_nat n)).

(** ** The collaborators the provider is handed *)

(** The document engine (yjs and y-protocols/sync). *)
Class DocEngine (Doc : Type) : Type :=
  { clientID : Doc -> Z;
    applyUpdate : Doc -> Bytes -> Doc;
    encodeStateAsUpdate : Doc -> Bytes;
    encodeStateAsUpdateSince : Doc -> Bytes -> Bytes;
    encodeStateVector : Doc -> Bytes;
    mergeUpdates : Bytes -> Bytes -> Bytes }.

(** The presence store (y-protocols/awareness).  The operations that change
    the store return the clients whose entry changed; an empty list means that
    no ['update'] event is emitted. *)
Class AwarenessStore (Aw : Type) : Type :=
  { newAwareness : Z -> Aw;
    applyAwarenessUpdate : Aw -> Bytes -> Aw * list Z;
    removeAwarenessStates : Aw -> list Z -> Aw * list Z;
    setLocalState : Aw -> option Json -> Aw * list Z;
    encodeAwarenessUpdate : Aw -> list Z -> Bytes;
    awareness_destroy : Aw -> Aw }.

(** The [Transport] interface of [transport.d.ts].  [transport_connect] gives
    the transport once the promise has settled, and [Some e] when it was
    rejected with [e]. *)
Class Transport (T : Type) : Type :=
  { isConnected : T -> bool;
    transport_connect : ConnectionConfig -> T -> T * option JsValue;
    transport_disconnect : T -> T;
    transport_send : Frame -> T -> T;
    transport_onMessage : T -> T;
    transport_unsubscribe : T -> T }.

Record Options (Aw : Type) : Type :=
  { opt_awareness : option Aw;
    opt_syncInterval : option Z;
    opt_verifyUpdates : option bool;
    opt_batchUpdates : option Z }.

Arguments opt_awareness {Aw} _.
Arguments opt_syncInterval {Aw} _.
Arguments opt_verifyUpdates {Aw} _.
Arguments opt_batchUpdates {Aw} _.

Section Provider.

Context {Doc Aw T : Type}.
Context {docEngine : DocEngine Doc}.
Context {awarenessStore : AwarenessStore Aw}.
Context {transportImpl : Transport T}.

Definition computeDocHash (d : Doc) : Z := hashBytes (encodeStateAsUpdate d).

(** ** The provider instance *)

Record GenericProvider : Type :=
  { _status : ConnectionStatus;
    _synced : bool;
    _destroying : bool;
    _hashMismatchCount : Z;
    _lastHashMismatchTime : Z;
    _syncRequestTimes : list Z;
    _maxSyncRequestsPerWindow : Z;
    _syncRequestWindowMs : Z;
    _localSeqNum : Z;
    _remoteSeqNums : gmap Z Z;
    _batchUpdates : Z;
    _pendingUpdate : option Bytes;
    _syncInterval : Z;
    _verifyUpdates : bool;
    _syncIntervalId : option Z;
    _batchTimeoutId : option Z;
    _unsubscribeTransport : bool;
    _updateHandler : bool;
    _awarenessUpdateHandler : bool;
    doc : Doc;
    awareness : Aw;
    transport : T;
    pubsub : list Handler;
    (* outside the instance *)
    timers : list Timer;
    nextTimerId : Z;
    nextHandlerId : Z;
    console : list LogEntry;
    transportCalls : list TransportCall;
    emitted : list Emitted;
    callbackCalls : list CallbackCall }.

(** An assignment to one field. *)
Inductive Assignment : Type :=
| Set_status (v : ConnectionStatus)
| Set_synced (v : bool)
| Set_destroying (v : bool)
| Set_hashMismatchCount (v : Z)
| Set_lastHashMismatchTime (v : Z)
| Set_syncRequestTimes (v : list Z)
| Set_localSeqNum (v : Z)
| Set_remoteSeqNums (v : gmap Z Z)
| Set_pendingUpdate (v : option Bytes)
| Set_syncIntervalId (v : option Z)
| Set_batchTimeoutId (v : option Z)
| Set_unsubscribeTransport (v : bool)
| Set_updateHandler (v : bool)
| Set_awarenessUpdateHandler (v : bool)
| Set_doc (v : Doc)
| Set_awareness (v : Aw)
| Set_transport (v : T)
| Set_pubsub (v : list Handler)
| Set_timers (v : list Timer)
| Set_nextTimerId (v : Z)
| Set_nextHandlerId (v : Z)
| Set_console (v : list LogEntry)
| Set_transportCalls (v : list TransportCall)
| Set_emitted (v : list Emitted)
| Set_callbackCalls (v : list CallbackCall).

Definition assign (a : Assignment) (p : GenericProvider) : GenericProvider :=
  {| _status := match a with Set_status v => v | _ => _status p end;
     _synced := match a with Set_synced v => v | _ => _synced p end;
     _destroying := match a with Set_destroying v => v | _ => _destroying p end;
     _hashMismatchCount :=
       match a with Set_hashMismatchCount v => v | _ => _hashMismatchCount p end;
     _lastHashMismatchTime :=
       match a with
       | Set_lastHashMismatchTime v => v
       | _ => _lastHashMismatchTime p
       end;
     _syncRequestTimes :=
       match a with Set_syncRequestTimes v => v | _ => _syncRequestTimes p end;
     _maxSyncRequestsPerWindow := _maxSyncRequestsPerWindow p;
     _syncRequestWindowMs := _syncRequestWindowMs p;
     _localSeqNum := match a with Set_localSeqNum v => v | _ => _localSeqNum p end;
     _remoteSeqNums :=
       match a with Set_remoteSeqNums v => v | _ => _remoteSeqNums p end;
     _batchUpdates := _batchUpdates p;
     _pendingUpdate :=
       match a with Set_pendingUpdate v => v | _ => _pendingUpdate p end;
     _syncInterval := _syncInterval p;
     _verifyUpdates := _verifyUpdates p;
     _syncIntervalId :=
       match a with Set_syncIntervalId v => v | _ => _syncIntervalId p end;
     _batchTimeoutId :=
       match a with Set_batchTimeoutId v => v | _ => _batchTimeoutId p end;
     _unsubscribeTransport :=
       match a with
       | Set_unsubscribeTransport v => v
       | _ => _unsubscribeTransport p
       end;
     _updateHandler :=
       match a with Set_updateHandler v => v | _ => _updateHandler p end;
     _awarenessUpdateHandler :=
       match a with
       | Set_awarenessUpdateHandler v => v
       | _ => _awarenessUpdateHandler p
       end;
     doc := match a with Set_doc v => v | _ => doc p end;
     awareness := match a with Set_awareness v => v | _ => awareness p end;
     transport := match a with Set_transport v => v | _ => transport p end;
     pubsub := match a with Set_pubsub v => v | _ => pubsub p end;
     timers := match a with Set_timers v => v | _ => timers p end;
     nextTimerId := match a with Set_nextTimerId v => v | _ => nextTimerId p end;
     nextHandlerId :=
       match a with Set_nextHandlerId v => v | _ => nextHandlerId p end;
     console := match a with Set_console v => v | _ => console p end;
     transportCalls :=
       match a with Set_transportCalls v => v | _ => transportCalls p end;
     emitted := match a with Set_emitted v => v | _ => emitted p end;
     callbackCalls :=
       match a with Set_callbackCalls v => v | _ => callbackCalls p end |}.


(** ** Timers, console, events *)

(** [setTimeout] and [setInterval]: the timer is pending under the handle
    [nextTimerId p], which is the value the call returns. *)
Definition setTimer (kind : TimerKind) (delay : Z) (p : GenericProvider)
  : GenericProvider :=
  let id := nextTimerId p in
  assign (Set_nextTimerId (id + 1))
    (assign
       (Set_timers
          (timers p ++
           [{| timer_id := id; timer_kind := kind; timer_delay := delay |}]))
       p).

(** [clearTimeout] and [clearInterval] *)
Definition clearTimer (id : Z) (p : GenericProvider) : GenericProvider :=
  assign
    (Set_timers (List.filter (fun t => negb (timer_id t =? id)) (timers p))) p.

Definition console_log (e : LogEntry) (p : GenericProvider) : GenericProvider :=
  assign (Set_console (console p ++ [e])) p.

Definition emit (e : Emitted) (p : GenericProvider) : GenericProvider :=
  assign (Set_emitted (emitted p ++ [e])) p.

(** A method of the transport is called: the call is recorded and the
    transport is as the method left it. *)
Definition call_transport (c : TransportCall) (t : T) (p : GenericProvider)
  : GenericProvider :=
  assign (Set_transportCalls (transportCalls p ++ [c]))
    (assign (Set_transport t) p).

(** [this.transport.send(data)] *)
Definition send_on_transport (data : Frame) (p : GenericProvider)
  : GenericProvider :=
  call_transport (CallSend data) (transport_send data (transport p)) p.

(** The frames handed to [transport.send], oldest first. *)
Definition sent (p : GenericProvider) : list Frame :=
  flat_map (fun c => match c with CallSend f => [f] | _ => [] end)
    (transportCalls p).

(** ** Sending *)

Definition _setStatus (status : ConnectionStatus) (p : GenericProvider)
  : GenericProvider :=
  emit (EmitStatus status) (assign (Set_status status) p).

Definition _send (data : Frame) (p : GenericProvider) : GenericProvider :=
  if isConnected (transport p) then send_on_transport data p else p.

Definition _sendSyncStep1 (now : Z) (p : GenericProvider) : GenericProvider :=
  let p :=
    assign
      (Set_syncRequestTimes
         (List.filter (fun t => now - t <? _syncRequestWindowMs p)
            (_syncRequestTimes p)))
      p in
  if _maxSyncRequestsPerWindow p <=? Z.of_nat (length (_syncRequestTimes p))
  then
    console_log
      (WarnRateLimit (_maxSyncRequestsPerWindow p) (_syncRequestWindowMs p)) p
  else
    let p := assign (Set_syncRequestTimes (_syncRequestTimes p ++ [now])) p in
    _send (FSync (SyncStep1 (encodeStateVector (doc p)))) p.

Definition _sendUpdate (update : Bytes) (p : GenericProvider)
  : GenericProvider :=
  if _verifyUpdates p then
    let seqNum := _localSeqNum p in
    let p := assign (Set_localSeqNum (seqNum + 1)) p in
    send_on_transport
      (FSyncVerified seqNum (clientID (doc p)) (YjsUpdate update)
         (Some (computeDocHash (doc p))))
      p
  else send_on_transport (FSync (YjsUpdate update)) p.

Definition _sendAwarenessUpdate (changedClients : list Z) (p : GenericProvider)
  : GenericProvider :=
  send_on_transport
    (FAwareness (encodeAwarenessUpdate (awareness p) changedClients)) p.

Definition _broadcastAwareness (clients : list Z) (p : GenericProvider)
  : GenericProvider :=
  match clients with
  | [] => p
  | _ => _send (FAwareness (encodeAwarenessUpdate (awareness p) clients)) p
  end.

Definition _sendPubSub (topic : string) (message : Json) (p : GenericProvider)
  : GenericProvider :=
  if negb (isConnected (transport p)) then console_log WarnPubSubNotConnected p
  else _send (FPubSub topic (Some message)) p.

(** ** Document and presence listeners *)

Definition _batchUpdate (update : Bytes) (p : GenericProvider)
  : GenericProvider :=
  let p :=
    match _pendingUpdate p with
    | Some pending =>
        assign (Set_pendingUpdate (Some (mergeUpdates pending update))) p
    | None => assign (Set_pendingUpdate (Some update)) p
    end in
  let p :=
    match _batchTimeoutId p with
    | Some id => clearTimer id p
    | None => p
    end in
  let id := nextTimerId p in
  let p := setTimer BatchFlush (_batchUpdates p) p in
  assign (Set_batchTimeoutId (Some id)) p.

(** The listener of [_setupDocumentSync], for an update whose origin is not
    the provider. *)
Definition updateHandler (update : Bytes) (p : GenericProvider)
  : GenericProvider :=
  if 0 <? _batchUpdates p then _batchUpdate update p else _sendUpdate update p.

(** The listener of [_setupAwarenessSync]; [changedClients] is
    [added.concat(updated).concat(removed)]. *)
Definition awarenessUpdateHandler (changedClients : list Z)
  (p : GenericProvider) : GenericProvider :=
  _broadcastAwareness changedClients p.

(** A change of the presence store reaches the listener while it is
    registered, and only when some entry changed. *)
Definition awareness_changed (r : Aw * list Z) (p : GenericProvider)
  : GenericProvider :=
  let p := assign (Set_awareness (fst r)) p in
  match snd r with
  | [] => p
  | changed =>
      if _awarenessUpdateHandler p then awarenessUpdateHandler changed p else p
  end.

(** ** The pub/sub channel *)

(** [subscribe(topic, callback)]: a fresh handler is appended to the observers
    of ['message'] (a JavaScript [Set], which iterates in insertion order).
    The handler is known by [nextHandlerId p]; that number stands for the
    unsubscribe function the call returns. *)
Definition subscribe (topic : string) (callback : Callback)
  (p : GenericProvider)
  : GenericProvider :=
  let id := nextHandlerId p in
  assign (Set_nextHandlerId (id + 1))
    (assign
       (Set_pubsub
          (pubsub p ++
           [{| handler_id := id; handler_topic := topic;
               handler_callback := callback |}]))
       p).

(** Calling the function that [subscribe] returned:
    [this.off('message', handler)]. *)
Definition unsubscribe (id : Z) (p : GenericProvider) : GenericProvider :=
  assign
    (Set_pubsub (List.filter (fun h => negb (handler_id h =? id)) (pubsub p)))
    p.

(** [topic === '*' || topic === receivedTopic] *)
Definition topic_matches (topic receivedTopic : string) : bool :=
  String.eqb topic "*" || String.eqb topic receivedTopic.

(** The closure [handler] of [subscribe], applied to a message: the call it
    makes, and whether that call throws. *)
Definition handler_call (h : Handler) (message : Json) (receivedTopic : string)
  : list CallbackCall :=
  if topic_matches (handler_topic h) receivedTopic
  then
    [{| via := handler_id h; called := callback_name (handler_callback h);
        with_message := message; with_topic := receivedTopic |}]
  else [].

Definition handler_throws (h : Handler) (message : Json)
  (receivedTopic : string) : bool :=
  topic_matches (handler_topic h) receivedTopic
  && callback_throws (handler_callback h) message receivedTopic.

(** [emit('message', [message, topic])] of lib0's [Observable]: the observers
    are called in insertion order by one [forEach], so an observer that
    throws ends the emit.  The calls made, and whether the emit threw. *)
Fixpoint emit_message (hs : list Handler) (message : Json) (topic : string)
  : list CallbackCall * bool :=
  match hs with
  | [] => ([], false)
  | h :: hs =>
      if handler_throws h message topic
      then (handler_call h message topic, true)
      else
        let rest := emit_message hs message topic in
        (handler_call h message topic ++ fst rest, snd rest)
  end.

(** [_handleMessage(topic, message)], up to the return or the throw of the
    emit. *)
Definition pubsub_handleMessage (topic : string) (message : Json)
  (p : GenericProvider) : GenericProvider :=
  assign
    (Set_callbackCalls
       (callbackCalls p ++ fst (emit_message (pubsub p) message topic)))
    p.

(** Whether [_handleMessage(topic, message)] throws. *)
Definition pubsub_throws (topic : string) (message : Json)
  (p : GenericProvider) : bool :=
  snd (emit_message (pubsub p) message topic).

Definition publish (topic : string) (message : Json) (p : GenericProvider)
  : GenericProvider :=
  _sendPubSub topic message p.

(** ** Inbound messages *)

(** [syncProtocol.readSyncMessage(decoder, encoder, doc, origin)]: the message
    type read, the document after it, and what was written to the reply
    encoder.  [None] when the reader throws.  The update is applied with the
    provider as origin, so the document listener of the provider ignores
    it. *)
Definition readSyncMessage (d : Doc) (m : SyncMessage)
  : option (Z * Doc * option SyncMessage) :=
  match m with
  | SyncStep1 sv =>
      Some (messageYjsSyncStep1, d, Some (SyncStep2 (encodeStateAsUpdateSince d sv)))
  | SyncStep2 update => Some (messageYjsSyncStep2, applyUpdate d update, None)
  | YjsUpdate update => Some (messageYjsUpdate, applyUpdate d update, None)
  | SyncUndecodable => None
  end.

(** [if (encoding.length(encoder) > 1) this._send(...)] *)
Definition send_reply (reply : option SyncMessage) (p : GenericProvider)
  : GenericProvider :=
  match reply with
  | Some r => _send (FSync r) p
  | None => p
  end.

(** The [localHash !== expectedHash] branch. *)
Definition hash_mismatch (now localHash expectedHash : Z) (p : GenericProvider)
  : GenericProvider :=
  let p := assign (Set_hashMismatchCount (_hashMismatchCount p + 1)) p in
  let p :=
    if 10000 <? now - _lastHashMismatchTime p
    then assign (Set_hashMismatchCount 1) p
    else p in
  let p := assign (Set_lastHashMismatchTime now) p in
  let delay := Z.min 10000 (10 * 5 ^ (_hashMismatchCount p - 1)) in
  let p :=
    console_log (WarnHashMismatch (_hashMismatchCount p) localHash expectedHash)
      p in
  let p := console_log (WarnResyncScheduled delay) p in
  setTimer BackoffResync delay p.

(** The log of a sequence gap. *)
Definition check_sequence_gap (senderClientID seqNum lastSeq : Z)
  (p : GenericProvider) : GenericProvider :=
  if (0 <=? lastSeq) && (number_add lastSeq 1 <? seqNum)
  then
    console_log
      (WarnSequenceGap senderClientID (number_add lastSeq 1) seqNum
         (number_sub (number_sub seqNum lastSeq) 1))
      p
  else p.

(** [if (syncMessageType === messageYjsSyncStep2 && !this._synced)] of the
    plain case. *)
Definition synced_after_step2 (syncMessageType : Z) (p : GenericProvider)
  : GenericProvider :=
  if (syncMessageType =? messageYjsSyncStep2) && negb (_synced p)
  then emit (EmitSynced true) (assign (Set_synced true) p)
  else p.

(** The verified case from [const localHash = computeDocHash(this.doc)] to
    the end of the second [if]. *)
Definition verify_hash (now syncMessageType expectedHash : Z)
  (p : GenericProvider) : GenericProvider :=
  let localHash := computeDocHash (doc p) in
  let p :=
    if negb (localHash =? expectedHash)
    then hash_mismatch now localHash expectedHash p
    else assign (Set_hashMismatchCount 0) p in
  if (syncMessageType =? messageYjsSyncStep2)
     && negb (_synced p) && (localHash =? expectedHash)
  then emit (EmitSynced true) (assign (Set_synced true) p)
  else p.

Definition _handleIncomingMessage (now : Z) (data : Frame) (p : GenericProvider)
  : GenericProvider :=
  match data with
  | FSync m =>
      match readSyncMessage (doc p) m with
      | None => console_log ErrorHandlingMessage p
      | Some (syncMessageType, d, reply) =>
          let p := assign (Set_doc d) p in
          let p := synced_after_step2 syncMessageType p in
          send_reply reply p
      end
  | FAwareness update =>
      awareness_changed (applyAwarenessUpdate (awareness p) update) p
  | FPubSub topic payload =>
      match payload with
      | Some message =>
          let thrown := pubsub_throws topic message p in
          let p := pubsub_handleMessage topic message p in
          if thrown then console_log ErrorDecodingPubSub p else p
      | None => console_log ErrorDecodingPubSub p
      end
  | FSyncVerified seqNum senderClientID m expectedHash =>
      let lastSeq := default (-1) (_remoteSeqNums p !! senderClientID) in
      if seqNum <=? lastSeq
      then console_log (WarnDuplicate senderClientID seqNum lastSeq) p
      else
        let p := check_sequence_gap senderClientID seqNum lastSeq p in
        let p :=
          assign
            (Set_remoteSeqNums (<[senderClientID := seqNum]> (_remoteSeqNums p)))
            p in
        match readSyncMessage (doc p) m with
        | None => console_log ErrorHandlingMessage p
        | Some (syncMessageType, d, reply) =>
            let p := assign (Set_doc d) p in
            match expectedHash with
            | None => console_log ErrorHandlingMessage p
            | Some expectedHash =>
                let p := verify_hash now syncMessageType expectedHash p in
                send_reply reply p
            end
        end
  | FUnknown tag => console_log (WarnUnknownType tag) p
  | FUndecodable => console_log ErrorHandlingMessage p
  end.

(** ** Life cycle *)

Definition new_GenericProvider (d : Doc) (t : T) (options : Options Aw)
  : GenericProvider :=
  {| _status := Disconnected;
     _synced := false;
     _destroying := false;
     _hashMismatchCount := 0;
     _lastHashMismatchTime := 0;
     _syncRequestTimes := [];
     _maxSyncRequestsPerWindow := 20;
     _syncRequestWindowMs := 10000;
     _localSeqNum := 0;
     _remoteSeqNums := empty;
     _batchUpdates := default 0 (opt_batchUpdates options);
     _pendingUpdate := None;
     _syncInterval := default 5000 (opt_syncInterval options);
     _verifyUpdates := default true (opt_verifyUpdates options);
     _syncIntervalId := None;
     _batchTimeoutId := None;
     _unsubscribeTransport := false;
     _updateHandler := true;
     _awarenessUpdateHandler := true;
     doc := d;
     awareness := default (newAwareness (clientID d)) (opt_awareness options);
     transport := t;
     pubsub := [];
     timers := [];
     nextTimerId := 1;
     nextHandlerId := 1;
     console := [];
     transportCalls := [];
     emitted := [];
     callbackCalls := [] |}.

(** The body of [connect] after [await this.transport.connect(config)] has
    resolved. *)
Definition connect_resolved (now : Z) (p : GenericProvider) : GenericProvider :=
  let p :=
    assign (Set_unsubscribeTransport true)
      (call_transport CallOnMessage (transport_onMessage (transport p)) p) in
  let p := _setStatus Connected p in
  let p := _sendSyncStep1 now p in
  let p := _broadcastAwareness [clientID (doc p)] p in
  if 0 <? _syncInterval p
  then
    let id := nextTimerId p in
    let p := setTimer PeriodicSync (_syncInterval p) p in
    assign (Set_syncIntervalId (Some id)) p
  else p.

Definition connect (now : Z) (config : ConnectionConfig) (p : GenericProvider)
  : GenericProvider * Result :=
  if _destroying p then (p, Threw (JsError "Provider is being destroyed"))
  else
    let p := _setStatus Connecting p in
    let '(t, rejected) := transport_connect config (transport p) in
    let p := call_transport (CallConnect config) t p in
    match rejected with
    | None => (connect_resolved now p, Returned)
    | Some e => (_setStatus (Error (toError e)) p, Threw e)
    end.

(** The instance once the promise of [connect] has settled. *)
Definition after_connect (now : Z) (config : ConnectionConfig)
  (p : GenericProvider) : GenericProvider :=
  fst (connect now config p).

(** The two guarded [clear...] blocks that open [disconnect] and [destroy]. *)
Definition stop_periodic_sync (p : GenericProvider) : GenericProvider :=
  match _syncIntervalId p with
  | Some id => assign (Set_syncIntervalId None) (clearTimer id p)
  | None => p
  end.

Definition clear_pending_batch (p : GenericProvider) : GenericProvider :=
  match _batchTimeoutId p with
  | Some id =>
      assign (Set_pendingUpdate None)
        (assign (Set_batchTimeoutId None) (clearTimer id p))
  | None => p
  end.

Definition disconnect (p : GenericProvider) : GenericProvider :=
  let p := stop_periodic_sync p in
  let p := clear_pending_batch p in
  let p :=
    if _unsubscribeTransport p
    then
      assign (Set_unsubscribeTransport false)
        (call_transport CallUnsubscribe (transport_unsubscribe (transport p))
           p)
    else p in
  let p :=
    awareness_changed
      (removeAwarenessStates (awareness p) [clientID (doc p)]) p in
  let p :=
    call_transport CallDisconnect (transport_disconnect (transport p)) p in
  let p := assign (Set_synced false) p in
  _setStatus Disconnected p.

Definition destroy (p : GenericProvider) : GenericProvider :=
  let p := assign (Set_destroying true) p in
  let p := stop_periodic_sync p in
  let p := clear_pending_batch p in
  let p := disconnect p in
  let p := assign (Set_updateHandler false) p in
  let p := assign (Set_awarenessUpdateHandler false) p in
  assign (Set_awareness (awareness_destroy (awareness p))) p.

Definition syncNow (now : Z) (p : GenericProvider) : GenericProvider :=
  if negb (isConnected (transport p)) then console_log WarnCannotSync p
  else
    let update := encodeStateAsUpdate (doc p) in
    let p :=
      if 0 <? Z.of_nat (length update) then _sendUpdate update p else p in
    let p := _sendSyncStep1 now p in
    _broadcastAwareness [clientID (doc p)] p.

(** ** Timer callbacks *)

Definition pending_timer (id : Z) (p : GenericProvider) : option Timer :=
  List.find (fun t => timer_id t =? id) (timers p).

(** The callback of the [setInterval] of [connect]. *)
Definition periodic_sync_callback (now : Z) (p : GenericProvider)
  : GenericProvider :=
  if isConnected (transport p) && negb (_destroying p)
  then _sendSyncStep1 now p
  else p.

(** The callback of the [setTimeout] of [_batchUpdate]. *)
Definition batch_flush_callback (p : GenericProvider) : GenericProvider :=
  let p :=
    match _pendingUpdate p with
    | Some pending => assign (Set_pendingUpdate None) (_sendUpdate pending p)
    | None => p
    end in
  assign (Set_batchTimeoutId None) p.

(** The callback of the [setTimeout] of the hash mismatch branch. *)
Definition backoff_resync_callback (now : Z) (p : GenericProvider)
  : GenericProvider :=
  _sendSyncStep1 now p.

(** The host runs the callback of a pending timer; a timeout is pending
    once, an interval until it is cleared. *)
Definition timer_fires (id now : Z) (p : GenericProvider) : GenericProvider :=
  match pending_timer id p with
  | None => p
  | Some t =>
      match timer_kind t with
      | PeriodicSync => periodic_sync_callback now p
      | BatchFlush => batch_flush_callback (clearTimer id p)
      | BackoffResync => backoff_resync_callback now (clearTimer id p)
      end
  end.

(** ** What can happen to an instance *)

Inductive Event : Type :=
| EvConnect (now : Z) (config : ConnectionConfig)
| EvDisconnect
| EvDestroy
| EvSyncNow (now : Z)
| EvMessage (now : Z) (data : Frame)
| EvTimer (id now : Z)
| EvDocUpdate (update : Bytes)
| EvLocalState (state : option Json)
| EvPublish (topic : string) (message : Json)
| EvSubscribe (topic : string) (callback : Callback)
| EvUnsubscribe (id : Z)
| EvTransport (t : T).

Definition step (p : GenericProvider) (ev : Event) : GenericProvider :=
  match ev with
  | EvConnect now config => after_connect now config p
  | EvDisconnect => disconnect p
  | EvDestroy => destroy p
  | EvSyncNow now => syncNow now p
  | EvMessage now data => _handleIncomingMessage now data p
  | EvTimer id now => timer_fires id now p
  | EvDocUpdate update =>
      let p := assign (Set_doc (applyUpdate (doc p) update)) p in
      if _updateHandler p then updateHandler update p else p
  | EvLocalState state =>
      awareness_changed (setLocalState (awareness p) state) p
  | EvPublish topic message => publish topic message p
  | EvSubscribe topic callback => subscribe topic callback p
  | EvUnsubscribe id => unsubscribe id p
  | EvTransport t => assign (Set_transport t) p
  end.

Definition run (p : GenericProvider) (evs : list Event) : GenericProvider :=
  fold_left step evs p.

(** ** Observations used in the statements *)

(** [this._remoteSeqNums.get(senderClientID) ?? -1] *)
Definition lastSeq (p : GenericProvider) (senderClientID : Z) : Z :=
  default (-1) (_remoteSeqNums p !! senderClientID).

(** The timestamps that [_sendSyncStep1] keeps at time [now]. *)
Definition in_window (now : Z) (p : GenericProvider) : list Z :=
  List.filter (fun t => now - t <? _syncRequestWindowMs p) (_syncRequestTimes p).

(** The frame [_sendUpdate] builds for [update]. *)
Definition update_frame (update : Bytes) (p : GenericProvider) : Frame :=
  if _verifyUpdates p
  then
    FSyncVerified (_localSeqNum p) (clientID (doc p)) (YjsUpdate update)
      (Some (computeDocHash (doc p)))
  else FSync (YjsUpdate update).

(** The resync request: a plain SYNC frame holding SyncStep1. *)
Definition resync_request (p : GenericProvider) : Frame :=
  FSync (SyncStep1 (encodeStateVector (doc p))).

(** The frames that complete the handshake: a plain SyncStep2, or a verified
    SyncStep2 that passes the sequence check and whose digest equals the
    digest of the document after the merge. *)
Definition completes_handshake (p : GenericProvider) (data : Frame) : bool :=
  match data with
  | FSync (SyncStep2 _) => true
  | FSyncVerified seqNum senderClientID (SyncStep2 update) (Some expectedHash) =>
      (lastSeq p senderClientID <? seqNum)
      && (computeDocHash (applyUpdate (doc p) update) =? expectedHash)
  | _ => false
  end.


(** ** Footprints

    Which fields an operation assigns.  [writes l p p'] says that [p'] is [p]
    after assignments to fields of [l] only. *)

Inductive Field : Type :=
| F_status | F_synced | F_destroying | F_hashMismatchCount
| F_lastHashMismatchTime | F_syncRequestTimes | F_localSeqNum
| F_remoteSeqNums | F_pendingUpdate | F_syncIntervalId | F_batchTimeoutId
| F_unsubscribeTransport | F_updateHandler | F_awarenessUpdateHandler
| F_doc | F_awareness | F_transport | F_pubsub | F_timers | F_nextTimerId
| F_nextHandlerId | F_console | F_transportCalls | F_emitted
| F_callbackCalls.

Definition field_of (a : Assignment) : Field :=
  match a with
  | Set_status _ => F_status
  | Set_synced _ => F_synced
  | Set_destroying _ => F_destroying
  | Set_hashMismatchCount _ => F_hashMismatchCount
  | Set_lastHashMismatchTime _ => F_lastHashMismatchTime
  | Set_syncRequestTimes _ => F_syncRequestTimes
  | Set_localSeqNum _ => F_localSeqNum
  | Set_remoteSeqNums _ => F_remoteSeqNums
  | Set_pendingUpdate _ => F_pendingUpdate
  | Set_syncIntervalId _ => F_syncIntervalId
  | Set_batchTimeoutId _ => F_batchTimeoutId
  | Set_unsubscribeTransport _ => F_unsubscribeTransport
  | Set_updateHandler _ => F_updateHandler
  | Set_awarenessUpdateHandler _ => F_awarenessUpdateHandler
  | Set_doc _ => F_doc
  | Set_awareness _ => F_awareness
  | Set_transport _ => F_transport
  | Set_pubsub _ => F_pubsub
  | Set_timers _ => F_timers
  | Set_nextTimerId _ => F_nextTimerId
  | Set_nextHandlerId _ => F_nextHandlerId
  | Set_console _ => F_console
  | Set_transportCalls _ => F_transportCalls
  | Set_emitted _ => F_emitted
  | Set_callbackCalls _ => F_callbackCalls
  end.

(** Position of a field in the list above. *)
Definition field_index (f : Field) : Z :=
  match f with
  | F_status => 0 | F_synced => 1 | F_destroying => 2
  | F_hashMismatchCount => 3 | F_lastHashMismatchTime => 4
  | F_syncRequestTimes => 5 | F_localSeqNum => 6 | F_remoteSeqNums => 7
  | F_pendingUpdate => 8 | F_syncIntervalId => 9 | F_batchTimeoutId => 10
  | F_unsubscribeTransport => 11 | F_updateHandler => 12
  | F_awarenessUpdateHandler => 13 | F_doc => 14 | F_awareness => 15
  | F_transport => 16 | F_pubsub => 17 | F_timers => 18
  | F_nextTimerId => 19 | F_nextHandlerId => 20 | F_console => 21
  | F_transportCalls => 22 | F_emitted => 23 | F_callbackCalls => 24
  end.

Definition touches (l : list Field) (f : Field) : bool :=
  existsb (fun g => field_index g =? field_index f) l.

Definition within (l l' : list Field) : bool :=
  forallb (touches l') l.

Definition writes (l : list Field) (p p' : GenericProvider) : Prop :=
  exists asg : list Assignment,
    Forall (fun a => touches l (field_of a) = true) asg /\
    p' = fold_right assign p asg.

(** ** Stamping

    [stamped p p'] says that from [p] to [p'] the verified frames handed to
    the transport are [k] new ones, numbered from [_localSeqNum p] on, and
    that the counter moved by [k]. *)
Definition stamped (p p' : GenericProvider) : Prop :=
  exists k : nat,
    _localSeqNum p' = _localSeqNum p + Z.of_nat k /\
    verifiedSeqNums (sent p') =
      verifiedSeqNums (sent p) ++
      map (fun i => _localSeqNum p + Z.of_nat i) (seq 0 k).


(** The window of the rate limiter holds no more timestamps than the limit
    allows. *)
Definition within_limit (p : GenericProvider) : Prop :=
  Z.of_nat (length (_syncRequestTimes p)) <= _maxSyncRequestsPerWindow p.

(** Between [p] and [q] no method of the transport was called. *)
Definition silent (p q : GenericProvider) : Prop :=
  transport q = transport p /\ transportCalls q = transportCalls p.

(** The step from [p] to [q] preserves the invariant [I]. *)
Definition preserves (I : GenericProvider -> Prop) (p q : GenericProvider)
  : Prop :=
  I p -> I q.

End Provider.

(** ** Concrete collaborators

    A small document engine, presence store and transport to run the
    provider on. *)

Module Sample.

(** A grow-only document: the elements inserted so far, in the order this
    replica saw them.  An update is a list of elements; 0 only terminates an
    encoding. *)
Record SetDoc : Type := { site : Z; elems : list Z }.

Definition member (x : Z) (l : list Z) : bool := existsb (Z.eqb x) l.

Definition insert_elem (d : SetDoc) (x : Z) : SetDoc :=
  if (x =? 0) || member x (elems d) then d
  else {| site := site d; elems := elems d ++ [x] |}.

#[export] Instance setDocEngine : DocEngine SetDoc :=
  {| clientID := site;
     applyUpdate := fun d update => fold_left insert_elem update d;
     encodeStateAsUpdate := fun d => elems d ++ [0];
     encodeStateAsUpdateSince :=
       fun d sv => List.filter (fun x => negb (member x sv)) (elems d) ++ [0];
     encodeStateVector := elems;
     mergeUpdates := fun a b => a ++ b |}.

(** Presence: the clients that are present.  An update is a list of pairs
    client, flag. *)
Record Presence : Type := { present : list Z; me : Z }.

Definition drop_clients (a : Presence) (cs : list Z) : Presence * list Z :=
  ({| present := List.filter (fun c => negb (member c cs)) (present a);
      me := me a |},
   List.filter (fun c => member c (present a)) cs).

Definition add_client (a : Presence) (c : Z) : Presence * list Z :=
  if member c (present a) then (a, [])
  else ({| present := present a ++ [c]; me := me a |}, [c]).

#[export] Instance presenceStore : AwarenessStore Presence :=
  {| newAwareness := fun c => {| present := [c]; me := c |};
     applyAwarenessUpdate :=
       fun a update =>
         match update with
         | [c; 0] => drop_clients a [c]
         | [c; _] => add_client a c
         | _ => (a, [])
         end;
     removeAwarenessStates := drop_clients;
     setLocalState :=
       fun a st =>
         match st with
         | Some _ => (fst (add_client a (me a)), [me a])
         | None => drop_clients a [me a]
         end;
     encodeAwarenessUpdate :=
       fun a cs =>
         flat_map (fun c => [c; if member c (present a) then 1 else 0]) cs;
     awareness_destroy := fun a => fst (drop_clients a [me a]) |}.

(** The in-memory transport of the test page, with a server that can be
    unreachable as in the WebSocket example. *)
Record Dummy : Type :=
  { _isConnected : bool;
    clientOffline : bool;
    messageCallback : bool;
    unreachable : option JsValue }.

#[export] Instance dummyTransport : Transport Dummy :=
  {| isConnected := fun t => _isConnected t && negb (clientOffline t);
     transport_connect :=
       fun _ t =>
         match unreachable t with
         | Some e => (t, Some e)
         | None =>
             ({| _isConnected := true; clientOffline := clientOffline t;
                 messageCallback := messageCallback t;
                 unreachable := None |}, None)
         end;
     transport_disconnect :=
       fun t =>
         {| _isConnected := false; clientOffline := clientOffline t;
            messageCallback := messageCallback t;
            unreachable := unreachable t |};
     transport_send := fun _ t => t;
     transport_onMessage :=
       fun t =>
         {| _isConnected := _isConnected t; clientOffline := clientOffline t;
            messageCallback := true; unreachable := unreachable t |};
     transport_unsubscribe :=
       fun t =>
         {| _isConnected := _isConnected t; clientOffline := clientOffline t;
            messageCallback := false; unreachable := unreachable t |} |}.

Definition no_options : Options Presence :=
  {| opt_awareness := None; opt_syncInterval := None;
     opt_verifyUpdates := None; opt_batchUpdates := None |}.

Definition online : Dummy :=
  {| _isConnected := false; clientOffline := false; messageCallback := false;
     unreachable := None |}.

Definition down : Dummy :=
  {| _isConnected := false; clientOffline := false; messageCallback := false;
     unreachable := Some (JsError "WebSocket connection failed") |}.

Definition empty_doc : SetDoc := {| site := 7; elems := [] |}.

(** A provider with the default options, fresh from its constructor. *)
Definition fresh : GenericProvider :=
  new_GenericProvider empty_doc online no_options.

Definition lobby : ConnectionConfig := {| room := "lobby" |}.

(** The same provider after [connect] at time 100000. *)
Definition joined : GenericProvider := fst (connect 100000 lobby fresh).

(** A verified update from replica 9 whose digest, 123, is not the digest of
    the document once [4; 5] is merged, which is 3999. *)
Definition remote_update : Frame :=
  FSyncVerified 0 9 (YjsUpdate [4; 5]) (Some 123).

(** The provider after that frame arrived at time 100500. *)
Definition diverged : GenericProvider :=
  _handleIncomingMessage 100500 remote_update joined.

(** The transport once the client has gone offline. *)
Definition offline : Dummy :=
  {| _isConnected := true; clientOffline := true; messageCallback := true;
     unreachable := None |}.

Definition cut_off : GenericProvider := step diverged (EvTransport offline).

(** The provider after the final step of the handshake arrived. *)
Definition handshaken : GenericProvider :=
  _handleIncomingMessage 100200 (FSync (SyncStep2 [1; 2])) joined.






(** Twenty resync requests at time 100000. *)
Definition saturated : GenericProvider :=
  Nat.iter 19 (_sendSyncStep1 100000) joined.

(** The frame of [remote_update] sent again, once with the digest of the
    document that holds [4; 5] and once with another one. *)
Definition resent_matching : Frame :=
  FSyncVerified 0 9 (YjsUpdate [4; 5]) (Some 3999).

Definition resent_differing : Frame :=
  FSyncVerified 0 9 (YjsUpdate [4; 5]) (Some 5).

(** A provider whose transport cannot reach its server. *)
Definition stranded : GenericProvider :=
  new_GenericProvider empty_doc down no_options.




End Sample.

(** * Footprints of the operations *)
Section Footprints.
Context {Doc Aw T : Type}.
Context {docEngine : DocEngine Doc}.
Context {awarenessStore : AwarenessStore Aw}.
Context {transportImpl : Transport T}.
Implicit Types p q r : @GenericProvider Doc Aw T.
Implicit Types a : @Assignment Doc Aw T.
Implicit Types l : list Field.

Lemma writes_refl l p : writes l p p.
Proof. exists []. split; [constructor | reflexivity]. Qed.

Lemma writes_assign l a p q :
  touches l (field_of a) = true -> writes l p q -> writes l p (assign a q).
Proof.
  intros Ha (asg & Hall & ->). exists (a :: asg). split; [|reflexivity].
  constructor; assumption.
Qed.

Lemma writes_trans l p q r : writes l p q -> writes l q r -> writes l p r.
Proof.
  intros (a1 & H1 & ->) (a2 & H2 & ->). exists (a2 ++ a1). split.
  - apply Forall_app; split; assumption.
  - rewrite foldr_app. reflexivity.
Qed.

Lemma touches_within l l' f :
  within l l' = true -> touches l f = true -> touches l' f = true.
Proof.
  unfold within, touches. intros Hw Hf.
  apply existsb_exists in Hf as (g & Hg & Heq).
  rewrite forallb_forall in Hw. specialize (Hw g Hg).
  apply existsb_exists in Hw as (g' & Hg' & Heq').
  apply existsb_exists. exists g'. split; [assumption|].
  apply Z.eqb_eq in Heq, Heq'. apply Z.eqb_eq. congruence.
Qed.

Lemma writes_within l l' p q :
  writes l p q -> within l l' = true -> writes l' p q.
Proof.
  intros (asg & Hall & ->) Hw. exists asg. split; [|reflexivity].
  eapply Forall_impl; [exact Hall|]. intros a Ha. cbn in *.
  eapply touches_within; eassumption.
Qed.

(** A projection that no assignment of the footprint changes keeps its value. *)
Lemma writes_frame {A} (proj : GenericProvider -> A) l p q :
  (forall a r, touches l (field_of a) = true -> proj (assign a r) = proj r) ->
  writes l p q -> proj q = proj p.
Proof.
  intros Hproj (asg & Hall & ->). induction Hall as [|a asg Ha _ IH]; cbn.
  - reflexivity.
  - rewrite Hproj by assumption. exact IH.
Qed.

Lemma touches_head f l : touches (f :: l) f = true.
Proof. unfold touches. cbn [existsb]. rewrite Z.eqb_refl. reflexivity. Qed.

Lemma assign_writes a p : writes [field_of a] p (assign a p).
Proof.
  apply writes_assign; [apply touches_head | apply writes_refl].
Qed.

End Footprints.

Ltac footprint_side := vm_compute; reflexivity.

Create HintDb footprint discriminated.
#[export] Hint Constants Opaque : footprint.

Ltac footprint_step :=
  lazymatch goal with
  | |- writes _ ?p ?p => apply writes_refl
  | |- writes _ _ (assign _ _) => apply writes_assign; [footprint_side|]
  | |- writes _ _ (if ?c then _ else _) => destruct c eqn:?
  | |- writes _ _ (match ?x with _ => _ end) => destruct x eqn:?
  | |- writes ?l ?p (?f ?q) =>
      apply (writes_trans l p q (f q));
      [| solve [ eapply writes_within; [ solve [eauto 1 with footprint nocore] | footprint_side ] ] ]
  end.

Ltac footprint := intros; cbv zeta; repeat footprint_step.

Section Ops.
Context {Doc Aw T : Type}.
Context {docEngine : DocEngine Doc}.
Context {awarenessStore : AwarenessStore Aw}.
Context {transportImpl : Transport T}.
Implicit Types p q r : @GenericProvider Doc Aw T.

Lemma setTimer_writes kind delay p :
  writes [F_timers; F_nextTimerId] p (setTimer kind delay p).
Proof. unfold setTimer. footprint. Qed.

Lemma clearTimer_writes id p : writes [F_timers] p (clearTimer id p).
Proof. unfold clearTimer. footprint. Qed.

Lemma console_log_writes e p : writes [F_console] p (console_log e p).
Proof. unfold console_log. footprint. Qed.

Lemma emit_writes e p : writes [F_emitted] p (emit e p).
Proof. unfold emit. footprint. Qed.

Lemma call_transport_writes c t p :
  writes [F_transport; F_transportCalls] p (call_transport c t p).
Proof. unfold call_transport. footprint. Qed.

Hint Resolve setTimer_writes clearTimer_writes console_log_writes emit_writes
  call_transport_writes : footprint.

Lemma send_on_transport_writes data p :
  writes [F_transport; F_transportCalls] p (send_on_transport data p).
Proof. unfold send_on_transport. footprint. Qed.

Lemma _setStatus_writes status p :
  writes [F_status; F_emitted] p (_setStatus status p).
Proof. unfold _setStatus. footprint. Qed.

Hint Resolve send_on_transport_writes _setStatus_writes : footprint.

Lemma _send_writes data p :
  writes [F_transport; F_transportCalls] p (_send data p).
Proof. unfold _send. footprint. Qed.

Hint Resolve _send_writes : footprint.

Lemma _sendSyncStep1_writes now p :
  writes [F_syncRequestTimes; F_console; F_transport; F_transportCalls] p
    (_sendSyncStep1 now p).
Proof. unfold _sendSyncStep1. footprint. Qed.

Lemma _sendUpdate_writes update p :
  writes [F_localSeqNum; F_transport; F_transportCalls] p
    (_sendUpdate update p).
Proof. unfold _sendUpdate. footprint. Qed.

Lemma _broadcastAwareness_writes clients p :
  writes [F_transport; F_transportCalls] p (_broadcastAwareness clients p).
Proof. unfold _broadcastAwareness. footprint. Qed.

Lemma _sendPubSub_writes topic message p :
  writes [F_console; F_transport; F_transportCalls] p
    (_sendPubSub topic message p).
Proof. unfold _sendPubSub. footprint. Qed.

Lemma _batchUpdate_writes update p :
  writes [F_pendingUpdate; F_timers; F_nextTimerId; F_batchTimeoutId] p
    (_batchUpdate update p).
Proof. unfold _batchUpdate. footprint. Qed.

Hint Resolve _sendSyncStep1_writes _sendUpdate_writes
  _broadcastAwareness_writes _sendPubSub_writes _batchUpdate_writes
  : footprint.

Lemma updateHandler_writes update p :
  writes
    [F_pendingUpdate; F_timers; F_nextTimerId; F_batchTimeoutId;
     F_localSeqNum; F_transport; F_transportCalls]
    p (updateHandler update p).
Proof. unfold updateHandler. footprint. Qed.

Lemma awareness_changed_writes res p :
  writes [F_awareness; F_transport; F_transportCalls] p
    (awareness_changed res p).
Proof. unfold awareness_changed, awarenessUpdateHandler. footprint. Qed.

Lemma subscribe_writes topic callback p :
  writes [F_pubsub; F_nextHandlerId] p (subscribe topic callback p).
Proof. unfold subscribe. footprint. Qed.

Lemma unsubscribe_writes id p : writes [F_pubsub] p (unsubscribe id p).
Proof. unfold unsubscribe. footprint. Qed.

Lemma pubsub_handleMessage_writes topic message p :
  writes [F_callbackCalls] p (pubsub_handleMessage topic message p).
Proof. unfold pubsub_handleMessage. footprint. Qed.

Lemma publish_writes topic message p :
  writes [F_console; F_transport; F_transportCalls] p
    (publish topic message p).
Proof. unfold publish. footprint. Qed.

Lemma send_reply_writes reply p :
  writes [F_transport; F_transportCalls] p (send_reply reply p).
Proof. unfold send_reply. footprint. Qed.

Lemma hash_mismatch_writes now localHash expectedHash p :
  writes
    [F_hashMismatchCount; F_lastHashMismatchTime; F_console; F_timers;
     F_nextTimerId]
    p (hash_mismatch now localHash expectedHash p).
Proof. unfold hash_mismatch. footprint. Qed.

Lemma check_sequence_gap_writes sender seqNum last p :
  writes [F_console] p (check_sequence_gap sender seqNum last p).
Proof. unfold check_sequence_gap. footprint. Qed.

Lemma synced_after_step2_writes ty p :
  writes [F_synced; F_emitted] p (synced_after_step2 ty p).
Proof. unfold synced_after_step2. footprint. Qed.

Hint Resolve updateHandler_writes awareness_changed_writes subscribe_writes
  unsubscribe_writes pubsub_handleMessage_writes publish_writes
  send_reply_writes hash_mismatch_writes check_sequence_gap_writes
  synced_after_step2_writes : footprint.

Lemma verify_hash_writes now ty expectedHash p :
  writes
    [F_hashMismatchCount; F_lastHashMismatchTime; F_console; F_timers;
     F_nextTimerId; F_synced; F_emitted]
    p (verify_hash now ty expectedHash p).
Proof. unfold verify_hash. footprint. Qed.

Hint Resolve verify_hash_writes : footprint.

Lemma _handleIncomingMessage_writes now data p :
  writes
    [F_console; F_doc; F_synced; F_emitted; F_transport; F_transportCalls;
     F_awareness; F_callbackCalls; F_remoteSeqNums; F_hashMismatchCount;
     F_lastHashMismatchTime; F_timers; F_nextTimerId]
    p (_handleIncomingMessage now data p).
Proof. unfold _handleIncomingMessage. footprint. Qed.

Lemma connect_resolved_writes now p :
  writes
    [F_unsubscribeTransport; F_transport; F_transportCalls; F_status;
     F_emitted; F_syncRequestTimes; F_console; F_timers; F_nextTimerId;
     F_syncIntervalId]
    p (connect_resolved now p).
Proof. unfold connect_resolved. footprint. Qed.

Hint Resolve _handleIncomingMessage_writes connect_resolved_writes : footprint.

Lemma after_connect_writes now config p :
  writes
    [F_unsubscribeTransport; F_transport; F_transportCalls; F_status;
     F_emitted; F_syncRequestTimes; F_console; F_timers; F_nextTimerId;
     F_syncIntervalId]
    p (after_connect now config p).
Proof.
  unfold after_connect, connect. destruct (_destroying p); cbn [fst]; [apply writes_refl|].
  cbv zeta. destruct (transport_connect _ _) as [t [e|]]; cbn [fst]; footprint.
Qed.

Lemma stop_periodic_sync_writes p :
  writes [F_syncIntervalId; F_timers] p (stop_periodic_sync p).
Proof. unfold stop_periodic_sync. footprint. Qed.

Lemma clear_pending_batch_writes p :
  writes [F_pendingUpdate; F_batchTimeoutId; F_timers] p
    (clear_pending_batch p).
Proof. unfold clear_pending_batch. footprint. Qed.

Hint Resolve after_connect_writes stop_periodic_sync_writes
  clear_pending_batch_writes : footprint.

Lemma disconnect_writes p :
  writes
    [F_syncIntervalId; F_timers; F_pendingUpdate; F_batchTimeoutId;
     F_unsubscribeTransport; F_transport; F_transportCalls; F_awareness;
     F_synced; F_status; F_emitted]
    p (disconnect p).
Proof. unfold disconnect. footprint. Qed.

Hint Resolve disconnect_writes : footprint.

Lemma destroy_writes p :
  writes
    [F_destroying; F_updateHandler; F_awarenessUpdateHandler;
     F_syncIntervalId; F_timers; F_pendingUpdate; F_batchTimeoutId;
     F_unsubscribeTransport; F_transport; F_transportCalls; F_awareness;
     F_synced; F_status; F_emitted]
    p (destroy p).
Proof. unfold destroy. footprint. Qed.

Lemma syncNow_writes now p :
  writes
    [F_console; F_localSeqNum; F_transport; F_transportCalls;
     F_syncRequestTimes]
    p (syncNow now p).
Proof. unfold syncNow. footprint. Qed.

Lemma periodic_sync_callback_writes now p :
  writes [F_syncRequestTimes; F_console; F_transport; F_transportCalls] p
    (periodic_sync_callback now p).
Proof. unfold periodic_sync_callback. footprint. Qed.

Lemma batch_flush_callback_writes p :
  writes
    [F_pendingUpdate; F_batchTimeoutId; F_localSeqNum; F_transport;
     F_transportCalls]
    p (batch_flush_callback p).
Proof. unfold batch_flush_callback. footprint. Qed.

Lemma backoff_resync_callback_writes now p :
  writes [F_syncRequestTimes; F_console; F_transport; F_transportCalls] p
    (backoff_resync_callback now p).
Proof. unfold backoff_resync_callback. footprint. Qed.

Hint Resolve destroy_writes syncNow_writes periodic_sync_callback_writes
  batch_flush_callback_writes backoff_resync_callback_writes : footprint.

Lemma timer_fires_writes id now p :
  writes
    [F_timers; F_syncRequestTimes; F_console; F_transport; F_transportCalls;
     F_pendingUpdate; F_batchTimeoutId; F_localSeqNum]
    p (timer_fires id now p).
Proof. unfold timer_fires. footprint. Qed.

Hint Resolve timer_fires_writes : footprint.

(** Every event but an inbound message, [disconnect] and [destroy] leaves
    the handshake flag, the sequence tracker, the mismatch counter and the
    callback record alone. *)
Lemma step_writes p (ev : @Event T) :
  (forall now data, ev <> EvMessage now data) ->
  ev <> EvDisconnect -> ev <> EvDestroy ->
  writes
    [F_unsubscribeTransport; F_transport; F_transportCalls; F_status;
     F_emitted; F_syncRequestTimes; F_console; F_timers; F_nextTimerId;
     F_syncIntervalId; F_localSeqNum; F_pendingUpdate; F_batchTimeoutId;
     F_doc; F_awareness; F_pubsub; F_nextHandlerId]
    p (step p ev).
Proof.
  intros Hm Hd He. destruct ev; try congruence; cbn [step].
  all: try (exfalso; eapply Hm; reflexivity).
  all: footprint.
Qed.

End Ops.

#[export] Hint Resolve assign_writes setTimer_writes clearTimer_writes
  console_log_writes emit_writes call_transport_writes send_on_transport_writes
  _setStatus_writes _send_writes _sendSyncStep1_writes _sendUpdate_writes
  _broadcastAwareness_writes _sendPubSub_writes _batchUpdate_writes
  updateHandler_writes awareness_changed_writes subscribe_writes
  unsubscribe_writes pubsub_handleMessage_writes publish_writes
  send_reply_writes hash_mismatch_writes check_sequence_gap_writes
  synced_after_step2_writes verify_hash_writes _handleIncomingMessage_writes
  connect_resolved_writes after_connect_writes stop_periodic_sync_writes
  clear_pending_batch_writes disconnect_writes destroy_writes syncNow_writes
  periodic_sync_callback_writes batch_flush_callback_writes
  backoff_resync_callback_writes timer_fires_writes : footprint.

Section Frames.
Context {Doc Aw T : Type}.
Context {docEngine : DocEngine Doc}.
Context {awarenessStore : AwarenessStore Aw}.
Context {transportImpl : Transport T}.
Implicit Types p q r : @GenericProvider Doc Aw T.
Implicit Types l : list Field.

(** A field outside the footprint keeps its value. *)
Lemma keeps_status l p q :
  writes l p q -> touches l F_status = false -> _status q = _status p.
Proof.
  intros Hw Hl. apply (writes_frame _status l); [|assumption].
  intros [] r Ha; try reflexivity. cbn [field_of] in Ha. congruence.
Qed.

Lemma keeps_synced l p q :
  writes l p q -> touches l F_synced = false -> _synced q = _synced p.
Proof.
  intros Hw Hl. apply (writes_frame _synced l); [|assumption].
  intros [] r Ha; try reflexivity. cbn [field_of] in Ha. congruence.
Qed.

Lemma keeps_destroying l p q :
  writes l p q -> touches l F_destroying = false -> _destroying q = _destroying p.
Proof.
  intros Hw Hl. apply (writes_frame _destroying l); [|assumption].
  intros [] r Ha; try reflexivity. cbn [field_of] in Ha. congruence.
Qed.

Lemma keeps_hashMismatchCount l p q :
  writes l p q -> touches l F_hashMismatchCount = false -> _hashMismatchCount q = _hashMismatchCount p.
Proof.
  intros Hw Hl. apply (writes_frame _hashMismatchCount l); [|assumption].
  intros [] r Ha; try reflexivity. cbn [field_of] in Ha. congruence.
Qed.

Lemma keeps_lastHashMismatchTime l p q :
  writes l p q -> touches l F_lastHashMismatchTime = false -> _lastHashMismatchTime q = _lastHashMismatchTime p.
Proof.
  intros Hw Hl. apply (writes_frame _lastHashMismatchTime l); [|assumption].
  intros [] r Ha; try reflexivity. cbn [field_of] in Ha. congruence.
Qed.

Lemma keeps_syncRequestTimes l p q :
  writes l p q -> touches l F_syncRequestTimes = false -> _syncRequestTimes q = _syncRequestTimes p.
Proof.
  intros Hw Hl. apply (writes_frame _syncRequestTimes l); [|assumption].
  intros [] r Ha; try reflexivity. cbn [field_of] in Ha. congruence.
Qed.

Lemma keeps_localSeqNum l p q :
  writes l p q -> touches l F_localSeqNum = false -> _localSeqNum q = _localSeqNum p.
Proof.
  intros Hw Hl. apply (writes_frame _localSeqNum l); [|assumption].
  intros [] r Ha; try reflexivity. cbn [field_of] in Ha. congruence.
Qed.

Lemma keeps_remoteSeqNums l p q :
  writes l p q -> touches l F_remoteSeqNums = false -> _remoteSeqNums q = _remoteSeqNums p.
Proof.
  intros Hw Hl. apply (writes_frame _remoteSeqNums l); [|assumption].
  intros [] r Ha; try reflexivity. cbn [field_of] in Ha. congruence.
Qed.

Lemma keeps_pendingUpdate l p q :
  writes l p q -> touches l F_pendingUpdate = false -> _pendingUpdate q = _pendingUpdate p.
Proof.
  intros Hw Hl. apply (writes_frame _pendingUpdate l); [|assumption].
  intros [] r Ha; try reflexivity. cbn [field_of] in Ha. congruence.
Qed.

Lemma keeps_syncIntervalId l p q :
  writes l p q -> touches l F_syncIntervalId = false -> _syncIntervalId q = _syncIntervalId p.
Proof.
  intros Hw Hl. apply (writes_frame _syncIntervalId l); [|assumption].
  intros [] r Ha; try reflexivity. cbn [field_of] in Ha. congruence.
Qed.

Lemma keeps_batchTimeoutId l p q :
  writes l p q -> touches l F_batchTimeoutId = false -> _batchTimeoutId q = _batchTimeoutId p.
Proof.
  intros Hw Hl. apply (writes_frame _batchTimeoutId l); [|assumption].
  intros [] r Ha; try reflexivity. cbn [field_of] in Ha. congruence.
Qed.

Lemma keeps_unsubscribeTransport l p q :
  writes l p q -> touches l F_unsubscribeTransport = false -> _unsubscribeTransport q = _unsubscribeTransport p.
Proof.
  intros Hw Hl. apply (writes_frame _unsubscribeTransport l); [|assumption].
  intros [] r Ha; try reflexivity. cbn [field_of] in Ha. congruence.
Qed.

Lemma keeps_updateHandler l p q :
  writes l p q -> touches l F_updateHandler = false -> _updateHandler q = _updateHandler p.
Proof.
  intros Hw Hl. apply (writes_frame _updateHandler l); [|assumption].
  intros [] r Ha; try reflexivity. cbn [field_of] in Ha. congruence.
Qed.

Lemma keeps_awarenessUpdateHandler l p q :
  writes l p q -> touches l F_awarenessUpdateHandler = false -> _awarenessUpdateHandler q = _awarenessUpdateHandler p.
Proof.
  intros Hw Hl. apply (writes_frame _awarenessUpdateHandler l); [|assumption].
  intros [] r Ha; try reflexivity. cbn [field_of] in Ha. congruence.
Qed.

Lemma keeps_doc l p q :
  writes l p q -> touches l F_doc = false -> doc q = doc p.
Proof.
  intros Hw Hl. apply (writes_frame doc l); [|assumption].
  intros [] r Ha; try reflexivity. cbn [field_of] in Ha. congruence.
Qed.

Lemma keeps_awareness l p q :
  writes l p q -> touches l F_awareness = false -> awareness q = awareness p.
Proof.
  intros Hw Hl. apply (writes_frame awareness l); [|assumption].
  intros [] r Ha; try reflexivity. cbn [field_of] in Ha. congruence.
Qed.

Lemma keeps_transport l p q :
  writes l p q -> touches l F_transport = false -> transport q = transport p.
Proof.
  intros Hw Hl. apply (writes_frame transport l); [|assumption].
  intros [] r Ha; try reflexivity. cbn [field_of] in Ha. congruence.
Qed.

Lemma keeps_pubsub l p q :
  writes l p q -> touches l F_pubsub = false -> pubsub q = pubsub p.
Proof.
  intros Hw Hl. apply (writes_frame pubsub l); [|assumption].
  intros [] r Ha; try reflexivity. cbn [field_of] in Ha. congruence.
Qed.

Lemma keeps_timers l p q :
  writes l p q -> touches l F_timers = false -> timers q = timers p.
Proof.
  intros Hw Hl. apply (writes_frame timers l); [|assumption].
  intros [] r Ha; try reflexivity. cbn [field_of] in Ha. congruence.
Qed.

Lemma keeps_nextTimerId l p q :
  writes l p q -> touches l F_nextTimerId = false -> nextTimerId q = nextTimerId p.
Proof.
  intros Hw Hl. apply (writes_frame nextTimerId l); [|assumption].
  intros [] r Ha; try reflexivity. cbn [field_of] in Ha. congruence.
Qed.

Lemma keeps_nextHandlerId l p q :
  writes l p q -> touches l F_nextHandlerId = false -> nextHandlerId q = nextHandlerId p.
Proof.
  intros Hw Hl. apply (writes_frame nextHandlerId l); [|assumption].
  intros [] r Ha; try reflexivity. cbn [field_of] in Ha. congruence.
Qed.

Lemma keeps_console l p q :
  writes l p q -> touches l F_console = false -> console q = console p.
Proof.
  intros Hw Hl. apply (writes_frame console l); [|assumption].
  intros [] r Ha; try reflexivity. cbn [field_of] in Ha. congruence.
Qed.

Lemma keeps_transportCalls l p q :
  writes l p q -> touches l F_transportCalls = false -> transportCalls q = transportCalls p.
Proof.
  intros Hw Hl. apply (writes_frame transportCalls l); [|assumption].
  intros [] r Ha; try reflexivity. cbn [field_of] in Ha. congruence.
Qed.

Lemma keeps_emitted l p q :
  writes l p q -> touches l F_emitted = false -> emitted q = emitted p.
Proof.
  intros Hw Hl. apply (writes_frame emitted l); [|assumption].
  intros [] r Ha; try reflexivity. cbn [field_of] in Ha. congruence.
Qed.

Lemma keeps_callbackCalls l p q :
  writes l p q -> touches l F_callbackCalls = false -> callbackCalls q = callbackCalls p.
Proof.
  intros Hw Hl. apply (writes_frame callbackCalls l); [|assumption].
  intros [] r Ha; try reflexivity. cbn [field_of] in Ha. congruence.
Qed.

(** The options and the limits are never assigned. *)
Lemma keeps_maxSyncRequestsPerWindow l p q : writes l p q -> _maxSyncRequestsPerWindow q = _maxSyncRequestsPerWindow p.
Proof.
  intros Hw. apply (writes_frame _maxSyncRequestsPerWindow l); [|assumption].
  intros [] r Ha; reflexivity.
Qed.

Lemma keeps_syncRequestWindowMs l p q : writes l p q -> _syncRequestWindowMs q = _syncRequestWindowMs p.
Proof.
  intros Hw. apply (writes_frame _syncRequestWindowMs l); [|assumption].
  intros [] r Ha; reflexivity.
Qed.

Lemma keeps_verifyUpdates l p q : writes l p q -> _verifyUpdates q = _verifyUpdates p.
Proof.
  intros Hw. apply (writes_frame _verifyUpdates l); [|assumption].
  intros [] r Ha; reflexivity.
Qed.

Lemma keeps_batchUpdates l p q : writes l p q -> _batchUpdates q = _batchUpdates p.
Proof.
  intros Hw. apply (writes_frame _batchUpdates l); [|assumption].
  intros [] r Ha; reflexivity.
Qed.

Lemma keeps_syncInterval l p q : writes l p q -> _syncInterval q = _syncInterval p.
Proof.
  intros Hw. apply (writes_frame _syncInterval l); [|assumption].
  intros [] r Ha; reflexivity.
Qed.

(** Reading a field that was just assigned. *)
Lemma status_assigned v p : _status (assign (Set_status v) p) = v.
Proof. reflexivity. Qed.

Lemma synced_assigned v p : _synced (assign (Set_synced v) p) = v.
Proof. reflexivity. Qed.

Lemma destroying_assigned v p : _destroying (assign (Set_destroying v) p) = v.
Proof. reflexivity. Qed.

Lemma hashMismatchCount_assigned v p : _hashMismatchCount (assign (Set_hashMismatchCount v) p) = v.
Proof. reflexivity. Qed.

Lemma lastHashMismatchTime_assigned v p : _lastHashMismatchTime (assign (Set_lastHashMismatchTime v) p) = v.
Proof. reflexivity. Qed.

Lemma syncRequestTimes_assigned v p : _syncRequestTimes (assign (Set_syncRequestTimes v) p) = v.
Proof. reflexivity. Qed.

Lemma localSeqNum_assigned v p : _localSeqNum (assign (Set_localSeqNum v) p) = v.
Proof. reflexivity. Qed.

Lemma remoteSeqNums_assigned v p : _remoteSeqNums (assign (Set_remoteSeqNums v) p) = v.
Proof. reflexivity. Qed.

Lemma pendingUpdate_assigned v p : _pendingUpdate (assign (Set_pendingUpdate v) p) = v.
Proof. reflexivity. Qed.

Lemma syncIntervalId_assigned v p : _syncIntervalId (assign (Set_syncIntervalId v) p) = v.
Proof. reflexivity. Qed.

Lemma batchTimeoutId_assigned v p : _batchTimeoutId (assign (Set_batchTimeoutId v) p) = v.
Proof. reflexivity. Qed.

Lemma unsubscribeTransport_assigned v p : _unsubscribeTransport (assign (Set_unsubscribeTransport v) p) = v.
Proof. reflexivity. Qed.

Lemma updateHandler_assigned v p : _updateHandler (assign (Set_updateHandler v) p) = v.
Proof. reflexivity. Qed.

Lemma awarenessUpdateHandler_assigned v p : _awarenessUpdateHandler (assign (Set_awarenessUpdateHandler v) p) = v.
Proof. reflexivity. Qed.

Lemma doc_assigned v p : doc (assign (Set_doc v) p) = v.
Proof. reflexivity. Qed.

Lemma awareness_assigned v p : awareness (assign (Set_awareness v) p) = v.
Proof. reflexivity. Qed.

Lemma transport_assigned v p : transport (assign (Set_transport v) p) = v.
Proof. reflexivity. Qed.

Lemma pubsub_assigned v p : pubsub (assign (Set_pubsub v) p) = v.
Proof. reflexivity. Qed.

Lemma timers_assigned v p : timers (assign (Set_timers v) p) = v.
Proof. reflexivity. Qed.

Lemma nextTimerId_assigned v p : nextTimerId (assign (Set_nextTimerId v) p) = v.
Proof. reflexivity. Qed.

Lemma nextHandlerId_assigned v p : nextHandlerId (assign (Set_nextHandlerId v) p) = v.
Proof. reflexivity. Qed.

Lemma console_assigned v p : console (assign (Set_console v) p) = v.
Proof. reflexivity. Qed.

Lemma transportCalls_assigned v p : transportCalls (assign (Set_transportCalls v) p) = v.
Proof. reflexivity. Qed.

Lemma emitted_assigned v p : emitted (assign (Set_emitted v) p) = v.
Proof. reflexivity. Qed.

Lemma callbackCalls_assigned v p : callbackCalls (assign (Set_callbackCalls v) p) = v.
Proof. reflexivity. Qed.

End Frames.

Create Rewrite HintDb assigned.
#[export] Hint Rewrite
  @status_assigned @synced_assigned @destroying_assigned
  @hashMismatchCount_assigned @lastHashMismatchTime_assigned
  @syncRequestTimes_assigned @localSeqNum_assigned @remoteSeqNums_assigned
  @pendingUpdate_assigned @syncIntervalId_assigned @batchTimeoutId_assigned
  @unsubscribeTransport_assigned @updateHandler_assigned
  @awarenessUpdateHandler_assigned @doc_assigned @awareness_assigned
  @transport_assigned @pubsub_assigned @timers_assigned
  @nextTimerId_assigned @nextHandlerId_assigned @console_assigned
  @transportCalls_assigned @emitted_assigned @callbackCalls_assigned
  : assigned.

(** The operations stay folded while a projection is moved past them. *)
Ltac folded tac :=
  with_strategy opaque
    [assign console_log emit setTimer clearTimer call_transport
     send_on_transport _setStatus _send _sendSyncStep1 _sendUpdate
     _broadcastAwareness _sendPubSub _batchUpdate updateHandler
     awarenessUpdateHandler awareness_changed subscribe unsubscribe
     pubsub_handleMessage publish send_reply hash_mismatch
     check_sequence_gap synced_after_step2 verify_hash
     _handleIncomingMessage connect_resolved connect after_connect
     stop_periodic_sync
     clear_pending_batch disconnect destroy syncNow periodic_sync_callback
     batch_flush_callback backoff_resync_callback timer_fires step]
    tac.

Tactic Notation "keep" uconstr(lem) constr(f) constr(q) :=
  folded
    ltac:(progress
            (erewrite (lem _ q (f q));
             [ | solve [eauto 1 with footprint nocore] | reflexivity ])).

Tactic Notation "keep_const" uconstr(lem) constr(f) constr(q) :=
  folded
    ltac:(progress
            (erewrite (lem _ q (f q));
             [ | solve [eauto 1 with footprint nocore] ])).

(** Move a projection inwards, past an operation that leaves it alone. *)
Ltac frame_step :=
  match goal with
  | |- context [_status (?f ?q)] => keep keeps_status f q
  | |- context [_synced (?f ?q)] => keep keeps_synced f q
  | |- context [_destroying (?f ?q)] => keep keeps_destroying f q
  | |- context [_hashMismatchCount (?f ?q)] => keep keeps_hashMismatchCount f q
  | |- context [_lastHashMismatchTime (?f ?q)] => keep keeps_lastHashMismatchTime f q
  | |- context [_syncRequestTimes (?f ?q)] => keep keeps_syncRequestTimes f q
  | |- context [_localSeqNum (?f ?q)] => keep keeps_localSeqNum f q
  | |- context [_remoteSeqNums (?f ?q)] => keep keeps_remoteSeqNums f q
  | |- context [_pendingUpdate (?f ?q)] => keep keeps_pendingUpdate f q
  | |- context [_syncIntervalId (?f ?q)] => keep keeps_syncIntervalId f q
  | |- context [_batchTimeoutId (?f ?q)] => keep keeps_batchTimeoutId f q
  | |- context [_unsubscribeTransport (?f ?q)] => keep keeps_unsubscribeTransport f q
  | |- context [_updateHandler (?f ?q)] => keep keeps_updateHandler f q
  | |- context [_awarenessUpdateHandler (?f ?q)] => keep keeps_awarenessUpdateHandler f q
  | |- context [doc (?f ?q)] => keep keeps_doc f q
  | |- context [awareness (?f ?q)] => keep keeps_awareness f q
  | |- context [transport (?f ?q)] => keep keeps_transport f q
  | |- context [pubsub (?f ?q)] => keep keeps_pubsub f q
  | |- context [timers (?f ?q)] => keep keeps_timers f q
  | |- context [nextTimerId (?f ?q)] => keep keeps_nextTimerId f q
  | |- context [nextHandlerId (?f ?q)] => keep keeps_nextHandlerId f q
  | |- context [console (?f ?q)] => keep keeps_console f q
  | |- context [transportCalls (?f ?q)] => keep keeps_transportCalls f q
  | |- context [emitted (?f ?q)] => keep keeps_emitted f q
  | |- context [callbackCalls (?f ?q)] => keep keeps_callbackCalls f q
  | |- context [_maxSyncRequestsPerWindow (?f ?q)] => keep_const keeps_maxSyncRequestsPerWindow f q
  | |- context [_syncRequestWindowMs (?f ?q)] => keep_const keeps_syncRequestWindowMs f q
  | |- context [_verifyUpdates (?f ?q)] => keep_const keeps_verifyUpdates f q
  | |- context [_batchUpdates (?f ?q)] => keep_const keeps_batchUpdates f q
  | |- context [_syncInterval (?f ?q)] => keep_const keeps_syncInterval f q
  end.

Ltac frames := repeat frame_step.

(** The same, together with the assignments met on the way. *)
Ltac simp :=
  repeat
    first
      [ frame_step
      | folded ltac:(progress autorewrite with assigned) ].

(** Name the providers that the [let]s of an operation bind, outermost
    first, so that the goal never holds more than one layer of it. *)
Ltac bind_lets :=
  repeat
    lazymatch goal with
    | |- context C [let x := ?v in @?b x] =>
        let y := fresh "q" in
        let E := fresh "E" in
        pose (y := v);
        let g := context C [b y] in
        change g; cbv beta;
        assert (E : y = v) by reflexivity;
        clearbody y
    end.

Ltac split_ifs :=
  repeat
    match goal with
    | |- context [if ?c then _ else _] => destruct c eqn:?
    end.

(** Walk back through the named providers. *)
Ltac unbind :=
  repeat
    (simp;
     try match goal with
         | E : ?q = _ |- context [?q] => is_var q; subst q
         end).

Section Synced.
Context {Doc Aw T : Type}.
Context {docEngine : DocEngine Doc}.
Context {awarenessStore : AwarenessStore Aw}.
Context {transportImpl : Transport T}.
Implicit Types p q r : @GenericProvider Doc Aw T.
Implicit Types l : list Field.

Lemma synced_after_step2_synced ty p :
  _synced (synced_after_step2 ty p) =
  _synced p || (ty =? messageYjsSyncStep2).
Proof.
  unfold synced_after_step2.
  destruct (ty =? messageYjsSyncStep2), (_synced p) eqn:E;
    cbn [andb negb orb]; simp; congruence.
Qed.

Lemma verify_hash_synced now ty h p :
  _synced (verify_hash now ty h p) =
  _synced p || ((ty =? messageYjsSyncStep2) && (computeDocHash (doc p) =? h)).
Proof.
  unfold verify_hash. cbv zeta.
  destruct (computeDocHash (doc p) =? h); cbn [negb]; simp;
    destruct (ty =? messageYjsSyncStep2), (_synced p) eqn:E;
    cbn [andb negb orb]; simp; congruence.
Qed.

Lemma handle_synced now data p :
  _synced (_handleIncomingMessage now data p) =
  _synced p || completes_handshake p data.
Proof.
  unfold _handleIncomingMessage, completes_handshake, lastSeq.
  destruct data as [m | u | topic payload | n s m h | tag | ].
  - destruct m; cbn [readSyncMessage]; cbv zeta; simp;
      rewrite ?synced_after_step2_synced; simp;
      try reflexivity; destruct (_synced p); reflexivity.
  - simp. destruct (_synced p); reflexivity.
  - destruct payload; cbv zeta; split_ifs; simp; destruct (_synced p);
      reflexivity.
  - rewrite (Z.leb_antisym _ n).
    destruct (_ <? n); cbn [negb andb]; cbv zeta.
    + destruct m; cbn [readSyncMessage]; destruct h; simp;
        rewrite ?verify_hash_synced; simp;
        try reflexivity; destruct (_synced p); reflexivity.
    + simp. destruct m as [| |u|]; try destruct h;
        destruct (_synced p); reflexivity.
  - simp. destruct (_synced p); reflexivity.
  - simp. destruct (_synced p); reflexivity.
Qed.
Lemma disconnect_synced p : _synced (disconnect p) = false.
Proof. unfold disconnect. bind_lets. unbind. reflexivity. Qed.

Lemma destroy_synced p : _synced (destroy p) = false.
Proof. unfold destroy. bind_lets. unbind. apply disconnect_synced. Qed.

(** What an event does to the flag. *)
Lemma step_synced p (ev : @Event T) :
  _synced (step p ev) =
  match ev with
  | EvMessage now data => _synced p || completes_handshake p data
  | EvDisconnect | EvDestroy => false
  | _ => _synced p
  end.
Proof.
  destruct ev; cbn [step].
  5: apply handle_synced.
  2: apply disconnect_synced.
  2: apply destroy_synced.
  all: bind_lets; unbind; try reflexivity.
  all: split_ifs; unbind; reflexivity.
Qed.

End Synced.

(** * The handshake flag *)

Section SyncedFlag.
Context {Doc Aw T : Type}.
Context {docEngine : DocEngine Doc}.
Context {awarenessStore : AwarenessStore Aw}.
Context {transportImpl : Transport T}.
Implicit Types p q r : @GenericProvider Doc Aw T.
Implicit Types ev : @Event T.

Lemma completes_handshake_inv p data :
  completes_handshake p data = true ->
  (exists u, data = FSync (SyncStep2 u)) \/
  (exists n s u h,
      data = FSyncVerified n s (SyncStep2 u) (Some h) /\
      lastSeq p s < n /\
      computeDocHash (applyUpdate (doc p) u) = h).
Proof.
  destruct data as [m | | | n s m h | | ]; cbn; try discriminate.
  - destruct m; try discriminate. intros _. left. eexists. reflexivity.
  - destruct m as [|u| |]; try discriminate. destruct h as [h|]; try discriminate.
    intros H. apply andb_true_iff in H as [H1 H2].
    apply Z.ltb_lt in H1. apply Z.eqb_eq in H2.
    right. exists n, s, u, h. repeat split; assumption.
Qed.

(** C4. The flag goes from false to true only while an inbound frame is
    handled whose payload is SyncStep2; when the frame is a verified one it
    passed the sequence check and the digest of the document after the merge
    equals the digest it carries.  A verified SyncStep2 whose digest differs
    leaves the flag as it was. *)
Theorem synced_only_by_final_handshake p :
  (forall ev,
      _synced p = false -> _synced (step p ev) = true ->
      exists now data,
        ev = EvMessage now data /\
        ((exists u, data = FSync (SyncStep2 u)) \/
         (exists n s u h,
             data = FSyncVerified n s (SyncStep2 u) (Some h) /\
             lastSeq p s < n /\
             computeDocHash (applyUpdate (doc p) u) = h))) /\
  (forall now n s u h,
      computeDocHash (applyUpdate (doc p) u) <> h ->
      _synced
        (_handleIncomingMessage now (FSyncVerified n s (SyncStep2 u) (Some h)) p)
      = _synced p).
Proof.
  split.
  - intros ev Hf Ht. rewrite step_synced in Ht.
    destruct ev; try congruence.
    rewrite Hf in Ht. cbn [orb] in Ht.
    exists now, data. split; [reflexivity|].
    apply completes_handshake_inv. exact Ht.
  - intros now n s u h Hne. rewrite handle_synced.
    cbn [completes_handshake]. apply Z.eqb_neq in Hne. rewrite Hne.
    rewrite andb_false_r, orb_false_r. reflexivity.
Qed.

Lemma run_app p (evs1 evs2 : list (@Event T)) :
  run p (evs1 ++ evs2) = run (run p evs1) evs2.
Proof. unfold run. apply fold_left_app. Qed.

(** C9. Once true, the flag stays true through every event that is neither
    [disconnect] nor [destroy]; these two set it to false. *)
Theorem synced_until_disconnect p (evs : list (@Event T)) :
  (_synced p = true ->
   Forall (fun ev => ev <> EvDisconnect /\ ev <> EvDestroy) evs ->
   _synced (run p evs) = true) /\
  _synced (disconnect p) = false /\
  _synced (destroy p) = false.
Proof.
  split; [|split; [apply disconnect_synced | apply destroy_synced]].
  intros Hs Hall. revert p Hs.
  induction Hall as [|ev evs [Hd He] _ IH]; intros p Hs; [exact Hs|].
  cbn [run fold_left]. apply IH. rewrite step_synced.
  destruct ev; try congruence. rewrite Hs. reflexivity.
Qed.

End SyncedFlag.

(** * What the primitive operations assign *)

Section Primitives.
Context {Doc Aw T : Type}.
Context {docEngine : DocEngine Doc}.
Context {awarenessStore : AwarenessStore Aw}.
Context {transportImpl : Transport T}.
Implicit Types p q r : @GenericProvider Doc Aw T.

Lemma setTimer_timers kind delay p :
  timers (setTimer kind delay p) =
  timers p ++
  [{| timer_id := nextTimerId p; timer_kind := kind; timer_delay := delay |}].
Proof. reflexivity. Qed.

Lemma setTimer_nextTimerId kind delay p :
  nextTimerId (setTimer kind delay p) = nextTimerId p + 1.
Proof. reflexivity. Qed.

Lemma clearTimer_timers id p :
  timers (clearTimer id p) =
  List.filter (fun t => negb (timer_id t =? id)) (timers p).
Proof. reflexivity. Qed.

Lemma console_log_console e p : console (console_log e p) = console p ++ [e].
Proof. reflexivity. Qed.

Lemma emit_emitted e p : emitted (emit e p) = emitted p ++ [e].
Proof. reflexivity. Qed.

Lemma call_transport_transport c t p : transport (call_transport c t p) = t.
Proof. reflexivity. Qed.

Lemma call_transport_transportCalls c t p :
  transportCalls (call_transport c t p) = transportCalls p ++ [c].
Proof. reflexivity. Qed.

Lemma _setStatus_status st p : _status (_setStatus st p) = st.
Proof. reflexivity. Qed.

Lemma _setStatus_emitted st p :
  emitted (_setStatus st p) = emitted p ++ [EmitStatus st].
Proof. reflexivity. Qed.

End Primitives.

#[export] Hint Rewrite @setTimer_timers @setTimer_nextTimerId
  @clearTimer_timers @console_log_console @emit_emitted
  @call_transport_transport @call_transport_transportCalls
  @_setStatus_status @_setStatus_emitted : assigned.

(** * The sequence tracker *)

Section SequenceTracker.
Context {Doc Aw T : Type}.
Context {docEngine : DocEngine Doc}.
Context {awarenessStore : AwarenessStore Aw}.
Context {transportImpl : Transport T}.
Implicit Types p q r : @GenericProvider Doc Aw T.
Implicit Types ev : @Event T.

(** A frame at or below the last sequence number seen is only logged. *)
Lemma handle_duplicate now n s m h p :
  n <= lastSeq p s ->
  _handleIncomingMessage now (FSyncVerified n s m h) p =
  console_log (WarnDuplicate s n (lastSeq p s)) p.
Proof.
  intros Hle. unfold _handleIncomingMessage, lastSeq in *.
  apply Z.leb_le in Hle. rewrite Hle. reflexivity.
Qed.

(** The shape of the verified case past the sequence check. *)
Lemma handle_accepted now n s m h p :
  lastSeq p s < n ->
  _handleIncomingMessage now (FSyncVerified n s m h) p =
  let q :=
    assign (Set_remoteSeqNums (<[s := n]> (_remoteSeqNums p)))
      (check_sequence_gap s n (lastSeq p s) p) in
  match readSyncMessage (doc p) m with
  | None => console_log ErrorHandlingMessage q
  | Some (syncMessageType, d, reply) =>
      match h with
      | None => console_log ErrorHandlingMessage (assign (Set_doc d) q)
      | Some expectedHash =>
          send_reply reply
            (verify_hash now syncMessageType expectedHash
               (assign (Set_doc d) q))
      end
  end.
Proof.
  intros Hlt. unfold _handleIncomingMessage, lastSeq in *.
  apply Z.leb_gt in Hlt. rewrite Hlt. cbv zeta.
  simp. reflexivity.
Qed.

Lemma handle_remoteSeqNums now data p :
  _remoteSeqNums (_handleIncomingMessage now data p) =
  match data with
  | FSyncVerified n s _ _ =>
      if n <=? lastSeq p s then _remoteSeqNums p
      else <[s := n]> (_remoteSeqNums p)
  | _ => _remoteSeqNums p
  end.
Proof.
  destruct data as [m | u | topic payload | n s m h | tag | ].
  - unfold _handleIncomingMessage.
    destruct (readSyncMessage _ _) as [[[ty d] reply]|]; bind_lets; unbind;
      reflexivity.
  - unfold _handleIncomingMessage. simp. reflexivity.
  - unfold _handleIncomingMessage.
    destruct payload; cbv zeta; split_ifs; simp; reflexivity.
  - destruct (n <=? lastSeq p s) eqn:Hle.
    + apply Z.leb_le in Hle. rewrite handle_duplicate by assumption.
      simp. reflexivity.
    + apply Z.leb_gt in Hle. rewrite handle_accepted by assumption.
      cbv zeta.
      destruct (readSyncMessage _ _) as [[[ty d] reply]|]; [destruct h|];
        simp; reflexivity.
  - unfold _handleIncomingMessage. simp. reflexivity.
  - unfold _handleIncomingMessage. simp. reflexivity.
Qed.








Lemma hash_mismatch_count now localHash expectedHash p :
  _hashMismatchCount (hash_mismatch now localHash expectedHash p) =
  if 10000 <? now - _lastHashMismatchTime p then 1
  else _hashMismatchCount p + 1.
Proof.
  unfold hash_mismatch. bind_lets. unbind.
  destruct (10000 <? _); simp; reflexivity.
Qed.

Lemma hash_mismatch_time now localHash expectedHash p :
  _lastHashMismatchTime (hash_mismatch now localHash expectedHash p) = now.
Proof. unfold hash_mismatch. bind_lets. unbind. reflexivity. Qed.

Lemma hash_mismatch_timers now localHash expectedHash p :
  timers (hash_mismatch now localHash expectedHash p) =
  timers p ++
  [{| timer_id := nextTimerId p;
      timer_kind := BackoffResync;
      timer_delay :=
        Z.min 10000
          (10 * 5 ^ (_hashMismatchCount
                       (hash_mismatch now localHash expectedHash p) - 1)) |}].
Proof.
  rewrite hash_mismatch_count.
  unfold hash_mismatch. bind_lets. unbind.
  destruct (10000 <? _); simp; reflexivity.
Qed.






End SequenceTracker.

(** * The desync detector *)

Section Backoff.
Context {Doc Aw T : Type}.
Context {docEngine : DocEngine Doc}.
Context {awarenessStore : AwarenessStore Aw}.
Context {transportImpl : Transport T}.
Implicit Types p q r : @GenericProvider Doc Aw T.
Implicit Types ev : @Event T.

Lemma backoff_table k :
  1 <= k ->
  Z.min 10000 (10 * 5 ^ (k - 1)) =
  nth (Z.to_nat (k - 1)) [10; 50; 250; 1250; 6250] 10000.
Proof.
  intros Hk. destruct (Z_le_gt_dec k 5) as [Hle|Hgt].
  - assert (Hc : k = 1 \/ k = 2 \/ k = 3 \/ k = 4 \/ k = 5) by lia.
    destruct Hc as [->|[->|[->|[->| ->]]]]; reflexivity.
  - rewrite nth_overflow by (cbn [length]; lia).
    apply Z.min_l.
    assert (Hp : 5 ^ 5 <= 5 ^ (k - 1)) by (apply Z.pow_le_mono_r; lia).
    change (5 ^ 5) with 3125 in Hp. lia.
Qed.

Lemma verify_hash_mismatch now ty h p :
  computeDocHash (doc p) <> h ->
  verify_hash now ty h p = hash_mismatch now (computeDocHash (doc p)) h p.
Proof.
  intros Hne. unfold verify_hash. cbv zeta.
  apply Z.eqb_neq in Hne. rewrite Hne. cbn [negb].
  rewrite andb_false_r. reflexivity.
Qed.

Lemma verify_hash_match_count now ty h p :
  computeDocHash (doc p) = h ->
  _hashMismatchCount (verify_hash now ty h p) = 0 /\
  timers (verify_hash now ty h p) = timers p /\
  _lastHashMismatchTime (verify_hash now ty h p) = _lastHashMismatchTime p.
Proof.
  intros He. unfold verify_hash. cbv zeta.
  apply Z.eqb_eq in He. rewrite He. cbn [negb].
  repeat split; split_ifs; simp; reflexivity.
Qed.

Lemma verify_hash_count_nonneg now ty h p :
  0 <= _hashMismatchCount p ->
  0 <= _hashMismatchCount (verify_hash now ty h p).
Proof.
  intros Hp. destruct (Z.eq_dec (computeDocHash (doc p)) h) as [He|Hne].
  - destruct (verify_hash_match_count now ty h p He) as [-> _]. lia.
  - rewrite verify_hash_mismatch by assumption. rewrite hash_mismatch_count.
    destruct (10000 <? _); lia.
Qed.

Lemma handle_count_nonneg now data p :
  0 <= _hashMismatchCount p ->
  0 <= _hashMismatchCount (_handleIncomingMessage now data p).
Proof.
  intros Hp. destruct data as [m | u | topic payload | n s m h | tag | ].
  - unfold _handleIncomingMessage.
    destruct (readSyncMessage _ _) as [[[ty d] reply]|]; bind_lets; unbind;
      exact Hp.
  - unfold _handleIncomingMessage. simp. exact Hp.
  - unfold _handleIncomingMessage.
    destruct payload; cbv zeta; split_ifs; simp; exact Hp.
  - destruct (Z_le_gt_dec n (lastSeq p s)) as [Hle|Hgt].
    + rewrite handle_duplicate by assumption. simp. exact Hp.
    + rewrite handle_accepted by lia. cbv zeta.
      destruct (readSyncMessage _ _) as [[[ty d] reply]|]; [destruct h|];
        simp; try exact Hp.
      apply verify_hash_count_nonneg. simp. exact Hp.
  - unfold _handleIncomingMessage. simp. exact Hp.
  - unfold _handleIncomingMessage. simp. exact Hp.
Qed.

Lemma step_count_nonneg p ev :
  0 <= _hashMismatchCount p -> 0 <= _hashMismatchCount (step p ev).
Proof.
  intros Hp. destruct ev; cbn [step].
  5: apply handle_count_nonneg; exact Hp.
  all: bind_lets; unbind; try exact Hp.
  all: split_ifs; unbind; exact Hp.
Qed.

(** The mismatch counter of an instance is never negative. *)
Lemma hashMismatchCount_nonneg d t (options : Options Aw)
  (evs : list (@Event T)) :
  0 <= _hashMismatchCount (run (new_GenericProvider d t options) evs).
Proof.
  assert (H : forall p, 0 <= _hashMismatchCount p ->
                        0 <= _hashMismatchCount (run p evs)).
  { induction evs as [|ev evs IH]; intros p Hp; cbn [run fold_left].
    - exact Hp.
    - apply IH. apply step_count_nonneg. exact Hp. }
  apply H. cbn. lia.
Qed.

(** C1, amended. For a verified frame that passes the sequence check and
    whose payload decodes: when the digest it carries differs from the digest
    of the document after the merge, the mismatch counter becomes 1 if more
    than 10000 ms have passed since the previous mismatch and one more than
    it was otherwise, the time of the mismatch is recorded, and a resync
    request is scheduled after min(10000, 10 * 5^(k-1)) ms for the new
    counter k, which is 10, 50, 250, 1250, 6250 for k from 1 to 5 and 10000
    from then on; when the digests are equal the counter becomes 0 and
    nothing is scheduled. *)
Theorem backoff_on_accepted_frame now n s m h p ty d reply :
  lastSeq p s < n ->
  readSyncMessage (doc p) m = Some (ty, d, reply) ->
  let p' := _handleIncomingMessage now (FSyncVerified n s m (Some h)) p in
  let k :=
    if 10000 <? now - _lastHashMismatchTime p then 1
    else _hashMismatchCount p + 1 in
  (computeDocHash d <> h ->
   _hashMismatchCount p' = k /\
   _lastHashMismatchTime p' = now /\
   timers p' =
     timers p ++
     [{| timer_id := nextTimerId p;
         timer_kind := BackoffResync;
         timer_delay := Z.min 10000 (10 * 5 ^ (k - 1)) |}] /\
   (0 <= _hashMismatchCount p ->
    Z.min 10000 (10 * 5 ^ (k - 1)) =
    nth (Z.to_nat (k - 1)) [10; 50; 250; 1250; 6250] 10000)) /\
  (computeDocHash d = h ->
   _hashMismatchCount p' = 0 /\ timers p' = timers p).
Proof.
  intros Hlt Hread. cbv zeta.
  rewrite handle_accepted by assumption. cbv zeta. rewrite Hread.
  set (q := assign (Set_doc d) _).
  assert (Hdoc : doc q = d) by (subst q; simp; reflexivity).
  assert (Hcount : _hashMismatchCount q = _hashMismatchCount p)
    by (subst q; simp; reflexivity).
  assert (Htime : _lastHashMismatchTime q = _lastHashMismatchTime p)
    by (subst q; simp; reflexivity).
  assert (Htimers : timers q = timers p) by (subst q; simp; reflexivity).
  assert (Hnext : nextTimerId q = nextTimerId p)
    by (subst q; simp; reflexivity).
  clearbody q. split.
  - intros Hne. simp. rewrite verify_hash_mismatch by congruence.
    rewrite hash_mismatch_timers, hash_mismatch_count, hash_mismatch_time.
    rewrite ?Hdoc, ?Hcount, ?Htime, ?Htimers, ?Hnext.
    repeat split. intros Hp. apply backoff_table.
    destruct (10000 <? _); lia.
  - intros He. simp.
    destruct (verify_hash_match_count now ty h q) as (H0 & Ht & _);
      [congruence|].
    rewrite H0, Ht, Htimers. split; reflexivity.
Qed.

End Backoff.

(** * Sending *)

Section Sending.
Context {Doc Aw T : Type}.
Context {docEngine : DocEngine Doc}.
Context {awarenessStore : AwarenessStore Aw}.
Context {transportImpl : Transport T}.
Implicit Types p q r : @GenericProvider Doc Aw T.
Implicit Types ev : @Event T.

Lemma sent_app (p q : @GenericProvider Doc Aw T) c :
  transportCalls q = transportCalls p ++ [c] ->
  sent q = sent p ++ match c with CallSend f => [f] | _ => [] end.
Proof.
  intros H. unfold sent. rewrite H, flat_map_app. cbn [flat_map].
  rewrite app_nil_r. reflexivity.
Qed.

Lemma sent_same (p q : @GenericProvider Doc Aw T) :
  transportCalls q = transportCalls p -> sent q = sent p.
Proof. intros H. unfold sent. rewrite H. reflexivity. Qed.

Lemma send_on_transport_sent data p :
  sent (send_on_transport data p) = sent p ++ [data].
Proof. apply (sent_app p _ (CallSend data)). reflexivity. Qed.

Lemma _send_sent data p :
  sent (_send data p) =
  sent p ++ (if isConnected (transport p) then [data] else []).
Proof.
  unfold _send. destruct (isConnected _).
  - apply send_on_transport_sent.
  - rewrite app_nil_r. reflexivity.
Qed.

Lemma in_window_spec now p t :
  In t (in_window now p) <->
  In t (_syncRequestTimes p) /\ now - t < _syncRequestWindowMs p.
Proof.
  unfold in_window. rewrite filter_In. rewrite Z.ltb_lt. reflexivity.
Qed.

Lemma _sendSyncStep1_dropped now p :
  _maxSyncRequestsPerWindow p <= Z.of_nat (length (in_window now p)) ->
  _sendSyncStep1 now p =
  console_log
    (WarnRateLimit (_maxSyncRequestsPerWindow p) (_syncRequestWindowMs p))
    (assign (Set_syncRequestTimes (in_window now p)) p).
Proof.
  intros Hle. unfold _sendSyncStep1. cbv zeta. simp.
  fold (in_window now p). apply Z.leb_le in Hle. rewrite Hle. reflexivity.
Qed.

Lemma _sendSyncStep1_passed now p :
  Z.of_nat (length (in_window now p)) < _maxSyncRequestsPerWindow p ->
  _sendSyncStep1 now p =
  _send (resync_request p)
    (assign (Set_syncRequestTimes (in_window now p ++ [now]))
       (assign (Set_syncRequestTimes (in_window now p)) p)).
Proof.
  intros Hlt. unfold _sendSyncStep1, resync_request. cbv zeta. simp.
  fold (in_window now p). apply Z.leb_gt in Hlt. rewrite Hlt. reflexivity.
Qed.

(** One request. *)
Lemma resync_request_step now p :
  let kept := in_window now p in
  let p' := _sendSyncStep1 now p in
  (_maxSyncRequestsPerWindow p <= Z.of_nat (length kept) ->
   _syncRequestTimes p' = kept /\
   sent p' = sent p /\
   transport p' = transport p /\
   console p' =
     console p ++
     [WarnRateLimit (_maxSyncRequestsPerWindow p) (_syncRequestWindowMs p)]) /\
  (Z.of_nat (length kept) < _maxSyncRequestsPerWindow p ->
   _syncRequestTimes p' = kept ++ [now] /\
   console p' = console p /\
   sent p' =
     sent p ++
     (if isConnected (transport p) then [resync_request p] else [])).
Proof.
  cbv zeta. split.
  - intros Hle. rewrite _sendSyncStep1_dropped by assumption.
    repeat split; simp; try reflexivity.
  - intros Hlt. rewrite _sendSyncStep1_passed by assumption.
    repeat split; simp; try reflexivity.
    rewrite _send_sent. simp. f_equal.
Qed.

Lemma in_window_same_instant now k p :
  0 < _syncRequestWindowMs p ->
  _syncRequestTimes p = repeat now k ->
  in_window now p = repeat now k.
Proof.
  intros Hw Ht. unfold in_window. rewrite Ht. clear Ht.
  induction k as [|k IH]; cbn [repeat List.filter]; [reflexivity|].
  replace (now - now <? _syncRequestWindowMs p) with true
    by (symmetry; apply Z.ltb_lt; lia).
  rewrite IH. reflexivity.
Qed.

(** [j] requests at one instant, from a window that holds [k] requests of
    that instant. *)
Lemma resync_requests_same_instant now p (k j : nat) :
  (forall f t, isConnected t = true -> isConnected (transport_send f t) = true) ->
  isConnected (transport p) = true ->
  _maxSyncRequestsPerWindow p = 20 ->
  0 < _syncRequestWindowMs p ->
  _syncRequestTimes p = repeat now k ->
  (k <= 20)%nat ->
  let pj := Nat.iter j (_sendSyncStep1 now) p in
  _syncRequestTimes pj = repeat now (Nat.min 20 (k + j)) /\
  sent pj = sent p ++ repeat (resync_request p) (Nat.min 20 (k + j) - k) /\
  console pj =
    console p ++
    repeat (WarnRateLimit 20 (_syncRequestWindowMs p))
      (k + j - Nat.min 20 (k + j)) /\
  isConnected (transport pj) = true /\
  doc pj = doc p /\
  _maxSyncRequestsPerWindow pj = 20 /\
  _syncRequestWindowMs pj = _syncRequestWindowMs p.
Proof.
  intros Hlaw Hconn Hmax Hwin Htimes Hk. cbv zeta.
  induction j as [|j IH].
  - cbn [Nat.iter nat_rect]. rewrite Nat.add_0_r, Nat.min_r by lia.
    rewrite Nat.sub_diag. cbn [repeat]. rewrite !app_nil_r.
    repeat split; assumption.
  - rewrite !Nat.iter_succ.
    set (pj := Nat.iter j (_sendSyncStep1 now) p) in *.
    destruct IH as (It & Is & Ic & Iconn & Idoc & Imax & Iwin).
    assert (Hkept : in_window now pj = repeat now (Nat.min 20 (k + j))).
    { apply in_window_same_instant; [lia | assumption]. }
    destruct (resync_request_step now pj) as [Hdrop Hpass]. cbv zeta in *.
    rewrite Hkept, Imax, repeat_length in Hdrop, Hpass.
    assert (Hreq : resync_request pj = resync_request p)
      by (unfold resync_request; rewrite Idoc; reflexivity).
    destruct (le_lt_dec 20 (k + j)) as [Hfull|Hroom].
    + destruct Hdrop as (Dt & Ds & Dtr & Dc); [lia|].
      rewrite Dt, Ds, Dc, Is, Ic, Iwin.
      assert (Hc : isConnected (transport (_sendSyncStep1 now pj)) = true)
        by (rewrite Dtr; exact Iconn).
      rewrite !Nat.min_l by lia.
      replace (k + S j - 20)%nat with (S (k + j - 20)) by lia.
      cbn [repeat]. rewrite repeat_cons, app_assoc.
      repeat split; try assumption; try reflexivity.
      * simp. exact Idoc.
      * simp. exact Imax.
      * simp. exact Iwin.
    + destruct Hpass as (Pt & Pc & Ps); [lia|].
      rewrite Pt, Ps, Pc, Is, Ic, Iconn, Hreq.
      rewrite !Nat.min_r by lia.
      replace (k + S j - (k + S j))%nat with 0%nat by lia.
      replace (k + j - (k + j))%nat with 0%nat by lia.
      replace (k + S j - k)%nat with (S (k + j - k)) by lia.
      replace (k + S j)%nat with (S (k + j)) by lia.
      cbn [repeat]. rewrite !repeat_cons, app_assoc, app_nil_r.
      repeat split; try reflexivity.
      * rewrite _sendSyncStep1_passed by (rewrite Hkept, Imax, repeat_length; lia).
        unfold _send. simp. rewrite Iconn. unfold send_on_transport. simp.
        apply Hlaw. exact Iconn.
      * simp. exact Idoc.
      * simp. exact Imax.
      * simp. exact Iwin.
Qed.

(** C3, amended. A resync request first drops the recorded timestamps that
    are 10000 ms old or older (it keeps [t] when [now - t] is below the
    window); with the limit reached among those kept it logs a warning and
    sends nothing; otherwise it records [now] and hands one plain SYNC frame
    holding SyncStep1 to the transport when the transport is connected, and
    nothing when it is not.  So 25 requests at one instant, starting from an
    empty window on a transport that stays connected, send 20 frames and log
    5 warnings. *)
Theorem resync_rate_limit now p :
  let kept := in_window now p in
  let p' := _sendSyncStep1 now p in
  (forall t,
      In t kept <->
      In t (_syncRequestTimes p) /\ now - t < _syncRequestWindowMs p) /\
  (_maxSyncRequestsPerWindow p <= Z.of_nat (length kept) ->
   _syncRequestTimes p' = kept /\
   sent p' = sent p /\
   console p' =
     console p ++
     [WarnRateLimit (_maxSyncRequestsPerWindow p) (_syncRequestWindowMs p)]) /\
  (Z.of_nat (length kept) < _maxSyncRequestsPerWindow p ->
   _syncRequestTimes p' = kept ++ [now] /\
   console p' = console p /\
   sent p' =
     sent p ++
     (if isConnected (transport p) then [resync_request p] else [])) /\
  ((forall f t,
       isConnected t = true -> isConnected (transport_send f t) = true) ->
   isConnected (transport p) = true ->
   _maxSyncRequestsPerWindow p = 20 ->
   _syncRequestWindowMs p = 10000 ->
   _syncRequestTimes p = [] ->
   let p25 := Nat.iter 25 (_sendSyncStep1 now) p in
   sent p25 = sent p ++ repeat (resync_request p) 20 /\
   console p25 = console p ++ repeat (WarnRateLimit 20 10000) 5).
Proof.
  cbv zeta. split; [|split; [|split]].
  - intros t. apply in_window_spec.
  - intros Hle. destruct (resync_request_step now p) as [H _].
    destruct (H Hle) as (A & B & _ & C). repeat split; assumption.
  - apply (resync_request_step now p).
  - intros Hlaw Hconn Hmax Hwin Htimes.
    destruct (resync_requests_same_instant now p 0 25 Hlaw Hconn Hmax)
      as (_ & Hs & Hc & _); [lia | exact Htimes | lia |].
    rewrite Hwin in Hc. split; [exact Hs | exact Hc].
Qed.

End Sending.

(** * [syncNow] and [connect] *)

Section Calls.
Context {Doc Aw T : Type}.
Context {docEngine : DocEngine Doc}.
Context {awarenessStore : AwarenessStore Aw}.
Context {transportImpl : Transport T}.
Implicit Types p q r : @GenericProvider Doc Aw T.
Implicit Types ev : @Event T.

Lemma _sendUpdate_sent update p :
  sent (_sendUpdate update p) = sent p ++ [update_frame update p].
Proof.
  unfold _sendUpdate, update_frame. destruct (_verifyUpdates p); cbv zeta.
  - rewrite send_on_transport_sent. simp. f_equal.
  - apply send_on_transport_sent.
Qed.

Lemma _broadcastAwareness_sent clients p :
  clients <> [] ->
  sent (_broadcastAwareness clients p) =
  sent p ++
  (if isConnected (transport p)
   then [FAwareness (encodeAwarenessUpdate (awareness p) clients)] else []).
Proof.
  intros Hne. unfold _broadcastAwareness.
  destruct clients; [congruence|]. apply _send_sent.
Qed.

Lemma _sendSyncStep1_sent now p :
  sent (_sendSyncStep1 now p) =
  sent p ++
  (if _maxSyncRequestsPerWindow p <=? Z.of_nat (length (in_window now p))
   then []
   else if isConnected (transport p) then [resync_request p] else []).
Proof.
  destruct (resync_request_step now p) as [Hdrop Hpass]. cbv zeta in *.
  destruct (_ <=? _) eqn:Hle.
  - apply Z.leb_le in Hle. destruct (Hdrop Hle) as (_ & -> & _).
    rewrite app_nil_r. reflexivity.
  - apply Z.leb_gt in Hle. destruct (Hpass Hle) as (_ & _ & ->). reflexivity.
Qed.


(** A provider that is being destroyed does not call the transport. *)
Lemma connect_destroying now config p :
  _destroying p = true ->
  connect now config p = (p, Threw (JsError "Provider is being destroyed")).
Proof. intros H. unfold connect. rewrite H. reflexivity. Qed.

(** C7. When the transport rejects the connection, [connect] leaves the
    status at error with the failure, throws what the transport threw, has
    called [transport.connect] once, has not registered for messages, sent
    nothing and armed no timer. *)
Theorem connect_rejected now config p t e :
  _destroying p = false ->
  transport_connect config (transport p) = (t, Some e) ->
  let p' := fst (connect now config p) in
  snd (connect now config p) = Threw e /\
  _status p' = Error (toError e) /\
  transportCalls p' = transportCalls p ++ [CallConnect config] /\
  emitted p' =
    emitted p ++ [EmitStatus Connecting; EmitStatus (Error (toError e))] /\
  timers p' = timers p /\
  _syncIntervalId p' = _syncIntervalId p /\
  _syncRequestTimes p' = _syncRequestTimes p.
Proof.
  intros Hd Hrej. cbv zeta. unfold connect. rewrite Hd. cbv zeta. simp.
  rewrite Hrej. cbn [fst snd].
  repeat split; simp; try reflexivity.
  rewrite <- app_assoc. reflexivity.
Qed.

End Calls.

(** * The pub/sub channel *)

Section PubSub.
Context {Doc Aw T : Type}.
Context {docEngine : DocEngine Doc}.
Context {awarenessStore : AwarenessStore Aw}.
Context {transportImpl : Transport T}.
Implicit Types p q r : @GenericProvider Doc Aw T.
Implicit Types ev : @Event T.















End PubSub.

(** * Local sequence numbers *)

Section StampedBasics.
Context {Doc Aw T : Type}.
Context {docEngine : DocEngine Doc}.
Context {awarenessStore : AwarenessStore Aw}.
Context {transportImpl : Transport T}.
Implicit Types p q r : @GenericProvider Doc Aw T.

Lemma verifiedSeqNums_app l1 l2 :
  verifiedSeqNums (l1 ++ l2) = verifiedSeqNums l1 ++ verifiedSeqNums l2.
Proof. unfold verifiedSeqNums. apply flat_map_app. Qed.

Lemma map_seq_offset {A} (f : nat -> A) a k :
  map f (seq a k) = map (fun i => f (a + i)%nat) (seq 0 k).
Proof.
  revert f a. induction k as [|k IH]; intros f a; [reflexivity|].
  cbn [seq map]. rewrite Nat.add_0_r. f_equal.
  rewrite (IH f (S a)), (IH (fun i => f (a + i)%nat) 1%nat).
  apply map_ext. intros i. f_equal. lia.
Qed.

Lemma stamped_refl p : stamped p p.
Proof.
  exists 0%nat. cbn [seq map]. rewrite Z.add_0_r, app_nil_r. split; reflexivity.
Qed.

Lemma stamped_trans p q r : stamped p q -> stamped q r -> stamped p r.
Proof.
  intros (k1 & L1 & S1) (k2 & L2 & S2). exists (k1 + k2)%nat. split.
  - rewrite L2, L1. lia.
  - rewrite S2, S1, L1, <- app_assoc. f_equal.
    rewrite seq_app, map_app. f_equal. cbn [Nat.add].
    rewrite (map_seq_offset _ k1 k2).
    apply map_ext. intros i. lia.
Qed.

(** Operations that neither move the counter nor call the transport. *)
Lemma stamped_keeps l p q :
  writes l p q ->
  touches l F_localSeqNum = false ->
  touches l F_transportCalls = false ->
  stamped p q.
Proof.
  intros Hw Hl Hc. exists 0%nat. cbn [seq map].
  rewrite Z.add_0_r, app_nil_r. split.
  - eapply keeps_localSeqNum; eassumption.
  - f_equal. apply sent_same. eapply keeps_transportCalls; eassumption.
Qed.

Lemma call_transport_stamped c t p :
  verifiedSeqNums (match c with CallSend f => [f] | _ => [] end) = [] ->
  stamped p (call_transport c t p).
Proof.
  intros Hc. exists 0%nat. cbn [seq map]. rewrite Z.add_0_r, app_nil_r. split.
  - unfold call_transport. simp. reflexivity.
  - rewrite (sent_app p _ c) by reflexivity.
    rewrite verifiedSeqNums_app, Hc, app_nil_r. reflexivity.
Qed.

Lemma _send_stamped data p :
  verifiedSeqNums [data] = [] -> stamped p (_send data p).
Proof.
  intros Hd. unfold _send, send_on_transport. destruct (isConnected _).
  - apply call_transport_stamped. exact Hd.
  - apply stamped_refl.
Qed.

Lemma _sendUpdate_stamped update p : stamped p (_sendUpdate update p).
Proof.
  unfold _sendUpdate. destruct (_verifyUpdates p) eqn:Hv; cbv zeta.
  - exists 1%nat. split.
    + unfold send_on_transport, call_transport. simp. reflexivity.
    + rewrite send_on_transport_sent, verifiedSeqNums_app. simp.
      cbn. rewrite Z.add_0_r. reflexivity.
  - unfold send_on_transport. apply call_transport_stamped. reflexivity.
Qed.

End StampedBasics.

Create HintDb stamped discriminated.
#[export] Hint Constants Opaque : stamped.
#[export] Hint Resolve call_transport_stamped _send_stamped
  _sendUpdate_stamped : stamped.
#[export] Hint Extern 1 (verifiedSeqNums _ = []) => reflexivity : stamped.

Ltac stamp_step :=
  lazymatch goal with
  | |- stamped ?p ?p => apply stamped_refl
  | |- stamped _ (if ?c then _ else _) => destruct c eqn:?
  | |- stamped _ (match ?x with _ => _ end) => destruct x eqn:?
  | |- stamped ?p (?f ?q) =>
      apply (stamped_trans p q (f q));
      [| solve
           [ eauto 2 with stamped nocore
           | eapply stamped_keeps;
             [ solve [eauto 1 with footprint nocore]
             | reflexivity | reflexivity ] ] ]
  end.

Ltac stamp := intros; cbv zeta; repeat stamp_step.

Section Stamped.
Context {Doc Aw T : Type}.
Context {docEngine : DocEngine Doc}.
Context {awarenessStore : AwarenessStore Aw}.
Context {transportImpl : Transport T}.
Implicit Types p q r : @GenericProvider Doc Aw T.

Lemma _sendSyncStep1_stamped now p : stamped p (_sendSyncStep1 now p).
Proof. unfold _sendSyncStep1. stamp. Qed.

Lemma _broadcastAwareness_stamped clients p :
  stamped p (_broadcastAwareness clients p).
Proof. unfold _broadcastAwareness. stamp. Qed.

Lemma _sendPubSub_stamped topic message p :
  stamped p (_sendPubSub topic message p).
Proof. unfold _sendPubSub. stamp. Qed.

Hint Resolve _sendSyncStep1_stamped _broadcastAwareness_stamped
  _sendPubSub_stamped : stamped.

Lemma updateHandler_stamped update p : stamped p (updateHandler update p).
Proof. unfold updateHandler. stamp. Qed.

Lemma awareness_changed_stamped res p : stamped p (awareness_changed res p).
Proof. unfold awareness_changed, awarenessUpdateHandler. stamp. Qed.

Lemma send_reply_stamped reply p : stamped p (send_reply reply p).
Proof. unfold send_reply. stamp. Qed.

Hint Resolve updateHandler_stamped awareness_changed_stamped
  send_reply_stamped : stamped.

Lemma _handleIncomingMessage_stamped now data p :
  stamped p (_handleIncomingMessage now data p).
Proof. unfold _handleIncomingMessage. stamp. Qed.

Lemma connect_resolved_stamped now p : stamped p (connect_resolved now p).
Proof. unfold connect_resolved. stamp. Qed.

Hint Resolve connect_resolved_stamped : stamped.

Lemma after_connect_stamped now config p :
  stamped p (after_connect now config p).
Proof.
  unfold after_connect, connect.
  destruct (_destroying p); cbn [fst]; [apply stamped_refl|].
  cbv zeta. destruct (transport_connect _ _) as [t [e|]]; cbn [fst]; stamp.
Qed.

Lemma disconnect_stamped p : stamped p (disconnect p).
Proof. unfold disconnect. stamp. Qed.

Hint Resolve disconnect_stamped : stamped.

Lemma destroy_stamped p : stamped p (destroy p).
Proof. unfold destroy. stamp. Qed.

Lemma syncNow_stamped now p : stamped p (syncNow now p).
Proof. unfold syncNow. stamp. Qed.

Lemma timer_fires_stamped id now p : stamped p (timer_fires id now p).
Proof.
  unfold timer_fires, periodic_sync_callback, batch_flush_callback,
    backoff_resync_callback.
  stamp.
Qed.

Lemma step_stamped p (ev : @Event T) : stamped p (step p ev).
Proof.
  destruct ev; cbn [step].
  - apply after_connect_stamped.
  - apply disconnect_stamped.
  - apply destroy_stamped.
  - apply syncNow_stamped.
  - apply _handleIncomingMessage_stamped.
  - apply timer_fires_stamped.
  - stamp.
  - stamp.
  - unfold publish. stamp.
  - stamp.
  - stamp.
  - stamp.
Qed.

Lemma run_stamped p (evs : list (@Event T)) : stamped p (run p evs).
Proof.
  revert p. induction evs as [|ev evs IH]; intros p; cbn [run fold_left].
  - apply stamped_refl.
  - eapply stamped_trans; [apply step_stamped | apply IH].
Qed.

(** C10. The verified frames an instance has handed to its transport carry
    the sequence numbers 0, 1, 2, ... in order, as many as the local counter
    says; a verified update takes the current number and moves the counter by
    one; [disconnect] and [connect] leave the counter alone, and a new
    instance starts at 0. *)
Theorem local_sequence_numbers d t (options : Options Aw)
  (evs : list (@Event T)) :
  let p := run (new_GenericProvider d t options) evs in
  verifiedSeqNums (sent p) = upto (_localSeqNum p) /\
  _localSeqNum (new_GenericProvider d t options) = 0 /\
  (forall q, _localSeqNum (disconnect q) = _localSeqNum q) /\
  (forall q now config,
      _localSeqNum (fst (connect now config q)) = _localSeqNum q) /\
  (forall q update,
      _verifyUpdates q = true ->
      sent (_sendUpdate update q) =
        sent q ++
        [FSyncVerified (_localSeqNum q) (clientID (doc q)) (YjsUpdate update)
           (Some (computeDocHash (doc q)))] /\
      _localSeqNum (_sendUpdate update q) = _localSeqNum q + 1).
Proof.
  cbv zeta. split; [|split; [|split; [|split]]].
  - destruct (run_stamped (new_GenericProvider d t options) evs)
      as (k & Hl & Hs).
    rewrite Hs, Hl. cbn [new_GenericProvider _localSeqNum sent transportCalls
      flat_map verifiedSeqNums app].
    unfold upto. rewrite Z.add_0_l, Nat2Z.id. reflexivity.
  - reflexivity.
  - intros q. simp. reflexivity.
  - intros q now config. fold (after_connect now config q). simp. reflexivity.
  - intros q update Hv. split.
    + rewrite _sendUpdate_sent. unfold update_frame. rewrite Hv. reflexivity.
    + unfold _sendUpdate. rewrite Hv. cbv zeta.
      unfold send_on_transport. simp. reflexivity.
Qed.

End Stamped.

(** * Further properties of the operations *)

Section Digest.
Context {Doc : Type} {docEngine : DocEngine Doc}.

Lemma toInt32_range z : - 2 ^ 31 <= toInt32 z < 2 ^ 31.
Proof.
  unfold toInt32.
  change (2 ^ 32) with 4294967296. change (2 ^ 31) with 2147483648.
  assert (H : 0 <= (z + 2147483648) mod 4294967296 < 4294967296)
    by (apply Z.mod_pos_bound; reflexivity).
  lia.
Qed.

Lemma hashStep_linear hash byte :
  hashStep hash byte = toInt32 (31 * hash + byte).
Proof.
  unfold hashStep. rewrite Z.shiftl_mul_pow2 by lia. unfold toInt32.
  change (2 ^ 32) with 4294967296. change (2 ^ 31) with 2147483648.
  change (2 ^ 5) with 32. f_equal.
  replace
    ((hash * 32 + 2147483648) mod 4294967296 - 2147483648 - hash + byte
     + 2147483648)
    with ((hash * 32 + 2147483648) mod 4294967296 + (byte - hash)) by lia.
  rewrite Zplus_mod_idemp_l. f_equal. lia.
Qed.

Lemma hashBytes_snoc state byte :
  hashBytes (state ++ [byte]) = hashStep (hashBytes state) byte.
Proof. unfold hashBytes. rewrite fold_left_app. reflexivity. Qed.

(** The digest is a signed 32-bit integer: 0 for the empty encoding, and
    each byte takes the hash [h] to [31 * h + byte] wrapped to 32 bits. *)
Theorem digest_is_int32 (d : Doc) state byte :
  - 2 ^ 31 <= computeDocHash d < 2 ^ 31 /\
  hashBytes [] = 0 /\
  hashBytes (state ++ [byte]) = toInt32 (31 * hashBytes state + byte).
Proof.
  split; [|split].
  - unfold computeDocHash.
    destruct (encodeStateAsUpdate d) as [|b l] using rev_ind.
    + cbn. lia.
    + rewrite hashBytes_snoc. unfold hashStep. apply toInt32_range.
  - reflexivity.
  - rewrite hashBytes_snoc. apply hashStep_linear.
Qed.

End Digest.

Section Inbound.
Context {Doc Aw T : Type}.
Context {docEngine : DocEngine Doc}.
Context {awarenessStore : AwarenessStore Aw}.
Context {transportImpl : Transport T}.
Implicit Types p q r : @GenericProvider Doc Aw T.
Implicit Types ev : @Event T.

(** A verified frame at or below the last sequence number seen from its
    sender gets no reply, whatever its payload: nothing is handed to the
    transport, and the document, the flag, the tracker, the mismatch counter
    and the timers are as before; one warning is logged. *)
Theorem duplicate_frame_gets_no_reply now n s m h p :
  n <= lastSeq p s ->
  let p' := _handleIncomingMessage now (FSyncVerified n s m h) p in
  sent p' = sent p /\
  doc p' = doc p /\
  _synced p' = _synced p /\
  _remoteSeqNums p' = _remoteSeqNums p /\
  _hashMismatchCount p' = _hashMismatchCount p /\
  timers p' = timers p /\
  console p' = console p ++ [WarnDuplicate s n (lastSeq p s)].
Proof.
  intros Hle. cbv zeta. rewrite handle_duplicate by assumption.
  split; [apply sent_same; simp; reflexivity|].
  repeat split; simp; reflexivity.
Qed.

(** A plain SyncStep1 is answered with SyncStep2, the updates the sender's
    state vector lacks, when the transport is connected; the document and the
    flag stay as they are. *)
Theorem sync_step1_is_answered now sv p :
  let p' := _handleIncomingMessage now (FSync (SyncStep1 sv)) p in
  sent p' =
    sent p ++
    (if isConnected (transport p)
     then [FSync (SyncStep2 (encodeStateAsUpdateSince (doc p) sv))]
     else []) /\
  doc p' = doc p /\
  _synced p' = _synced p.
Proof.
  cbv zeta. unfold _handleIncomingMessage. cbn [readSyncMessage]. cbv zeta.
  unfold send_reply, synced_after_step2.
  change (messageYjsSyncStep1 =? messageYjsSyncStep2) with false.
  cbn [andb]. split; [|split].
  - rewrite _send_sent. simp. reflexivity.
  - simp. reflexivity.
  - simp. reflexivity.
Qed.

(** No inbound frame changes the connection status, the destroying flag,
    the local sequence counter, the window of the rate limiter, the pending
    batch, the handles of the interval and the batch timeout, or the
    subscriptions of the pub/sub channel. *)
Theorem inbound_message_leaves_alone now data p :
  let p' := _handleIncomingMessage now data p in
  _status p' = _status p /\
  _destroying p' = _destroying p /\
  _localSeqNum p' = _localSeqNum p /\
  _syncRequestTimes p' = _syncRequestTimes p /\
  _pendingUpdate p' = _pendingUpdate p /\
  _syncIntervalId p' = _syncIntervalId p /\
  _batchTimeoutId p' = _batchTimeoutId p /\
  pubsub p' = pubsub p.
Proof. cbv zeta. repeat split; simp; reflexivity. Qed.

(** The tracker is per sender: a verified frame from [s] leaves the entry of
    every other sender as it is. *)
Theorem tracker_is_per_sender now n s m h p s' :
  s' <> s ->
  lastSeq (_handleIncomingMessage now (FSyncVerified n s m h) p) s' =
  lastSeq p s'.
Proof.
  intros Hne. unfold lastSeq at 1. rewrite handle_remoteSeqNums.
  destruct (n <=? lastSeq p s); [reflexivity|].
  rewrite lookup_insert_ne by congruence. reflexivity.
Qed.

(** The presence listener does not look at the origin of a change: a
    presence frame that changes entries of the store is broadcast again when
    the transport is connected. *)
Theorem remote_presence_is_rebroadcast now update p aw c changed :
  applyAwarenessUpdate (awareness p) update = (aw, c :: changed) ->
  _awarenessUpdateHandler p = true ->
  let p' := _handleIncomingMessage now (FAwareness update) p in
  awareness p' = aw /\
  sent p' =
    sent p ++
    (if isConnected (transport p)
     then [FAwareness (encodeAwarenessUpdate aw (c :: changed))]
     else []).
Proof.
  intros Happ Hreg. cbv zeta. unfold _handleIncomingMessage.
  rewrite Happ. unfold awareness_changed, awarenessUpdateHandler.
  cbn [fst snd]. simp. rewrite Hreg. split.
  - simp. reflexivity.
  - rewrite _broadcastAwareness_sent by discriminate. simp. reflexivity.
Qed.

End Inbound.

Section LifeCycle.
Context {Doc Aw T : Type}.
Context {docEngine : DocEngine Doc}.
Context {awarenessStore : AwarenessStore Aw}.
Context {transportImpl : Transport T}.
Implicit Types p q r : @GenericProvider Doc Aw T.
Implicit Types ev : @Event T.






Lemma step_destroying p ev :
  _destroying (step p ev) =
  match ev with
  | EvDestroy => true
  | _ => _destroying p
  end.
Proof.
  destruct ev; cbn [step]; try reflexivity.
  3: unfold destroy.
  all: bind_lets; unbind; try reflexivity.
  all: split_ifs; unbind; reflexivity.
Qed.

(** A destroyed provider stays destroyed: whatever happens afterwards,
    [connect] throws without calling the transport and without changing the
    instance. *)
Theorem destroyed_provider_cannot_connect p (evs : list (@Event T)) now config :
  let q := run (destroy p) evs in
  _destroying q = true /\
  connect now config q = (q, Threw (JsError "Provider is being destroyed")).
Proof.
  cbv zeta.
  assert (H : _destroying (run (destroy p) evs) = true).
  { assert (G : forall r, _destroying r = true -> _destroying (run r evs) = true).
    { induction evs as [|ev evs IH]; intros r Hr; cbn [run fold_left];
        [exact Hr|].
      apply IH. rewrite step_destroying. destruct ev; try exact Hr.
      reflexivity. }
    apply G. unfold destroy. bind_lets. unbind. reflexivity. }
  split; [exact H|]. apply connect_destroying. exact H.
Qed.

Lemma connect_resolved_effects now p :
  let p' := connect_resolved now p in
  _status p' = Connected /\
  _unsubscribeTransport p' = true /\
  emitted p' = emitted p ++ [EmitStatus Connected] /\
  (exists sends,
      transportCalls p' = transportCalls p ++ [CallOnMessage] ++ sends) /\
  timers p' =
    timers p ++
    (if 0 <? _syncInterval p
     then
       [{| timer_id := nextTimerId p; timer_kind := PeriodicSync;
           timer_delay := _syncInterval p |}]
     else []) /\
  _syncIntervalId p' =
    (if 0 <? _syncInterval p then Some (nextTimerId p) else _syncIntervalId p).
Proof.
  cbv zeta. unfold connect_resolved. simp.
  assert (Hcalls : forall q cs,
    transportCalls q = transportCalls p ++ [CallOnMessage] ->
    exists sends,
      transportCalls (_broadcastAwareness cs (_sendSyncStep1 now q)) =
      transportCalls p ++ [CallOnMessage] ++ sends).
  { intros q cs Hq.
    unfold _broadcastAwareness, _send, send_on_transport, call_transport.
    destruct cs;
      [|destruct (isConnected (transport (_sendSyncStep1 now q)))]; simp.
    all: unfold _sendSyncStep1, _send, send_on_transport, call_transport,
           console_log; cbv zeta; simp.
    all: split_ifs; simp; rewrite Hq, <- ?app_assoc; cbn [app].
    all: eexists; try reflexivity.
    all: try (rewrite app_nil_r; reflexivity). }
  destruct (0 <? _syncInterval p) eqn:Hi.
  - unfold setTimer, _setStatus, emit, call_transport. simp.
    split; [reflexivity|]. split; [reflexivity|]. split; [reflexivity|].
    split; [apply Hcalls; simp; reflexivity|].
    split; reflexivity.
  - unfold setTimer, _setStatus, emit, call_transport. simp.
    rewrite app_nil_r.
    split; [reflexivity|]. split; [reflexivity|]. split; [reflexivity|].
    split; [apply Hcalls; simp; reflexivity|].
    split; reflexivity.
Qed.

(** When the transport accepts the connection, [connect] returns with the
    status connected, after the calls [connect] and [onMessage] on the
    transport, and the periodic resync is armed with the configured interval
    exactly when that interval is positive. *)
Theorem connect_resolved_arms_interval now config p t :
  _destroying p = false ->
  transport_connect config (transport p) = (t, None) ->
  let p' := fst (connect now config p) in
  snd (connect now config p) = Returned /\
  _status p' = Connected /\
  _unsubscribeTransport p' = true /\
  emitted p' = emitted p ++ [EmitStatus Connecting; EmitStatus Connected] /\
  (exists sends,
      transportCalls p' =
      transportCalls p ++ [CallConnect config; CallOnMessage] ++ sends) /\
  timers p' =
    timers p ++
    (if 0 <? _syncInterval p
     then
       [{| timer_id := nextTimerId p; timer_kind := PeriodicSync;
           timer_delay := _syncInterval p |}]
     else []) /\
  _syncIntervalId p' =
    (if 0 <? _syncInterval p then Some (nextTimerId p) else _syncIntervalId p).
Proof.
  intros Hd Hres. cbv zeta.
  assert (E : connect now config p =
              (connect_resolved now
                 (call_transport (CallConnect config) t
                    (_setStatus Connecting p)), Returned)).
  { unfold connect. rewrite Hd. cbv zeta. simp. rewrite Hres. reflexivity. }
  rewrite E. cbn [fst snd]. split; [reflexivity|].
  destruct (connect_resolved_effects now
              (call_transport (CallConnect config) t (_setStatus Connecting p)))
    as (H1 & H2 & H3 & (sends & H4) & H5 & H6).
  split; [exact H1|]. split; [exact H2|].
  split; [rewrite H3; simp; unfold _setStatus, emit; simp;
          rewrite <- app_assoc; reflexivity|].
  split; [exists sends; rewrite H4; unfold call_transport; simp;
          rewrite <- app_assoc; reflexivity|].
  split; [rewrite H5|rewrite H6]; simp; reflexivity.
Qed.

(** [destroy] takes the listeners off the document and the presence store:
    a later local update or change of the local presence calls no method of
    the transport and arms no timer. *)
Theorem destroyed_provider_ignores_local_changes update state p :
  let q := destroy p in
  _updateHandler q = false /\
  _awarenessUpdateHandler q = false /\
  transportCalls (step q (EvDocUpdate update)) = transportCalls q /\
  timers (step q (EvDocUpdate update)) = timers q /\
  transportCalls (step q (EvLocalState state)) = transportCalls q.
Proof.
  cbv zeta.
  assert (Hu : _updateHandler (destroy p) = false).
  { unfold destroy. bind_lets. unbind. reflexivity. }
  assert (Ha : _awarenessUpdateHandler (destroy p) = false).
  { unfold destroy. bind_lets. unbind. reflexivity. }
  split; [exact Hu|]. split; [exact Ha|].
  cbn [step]. cbv zeta. simp. rewrite Hu.
  split; [simp; reflexivity|]. split; [simp; reflexivity|].
  unfold awareness_changed. cbv zeta. simp. rewrite Ha.
  destruct (snd _); simp; reflexivity.
Qed.

End LifeCycle.

(** * Invariants of the instance *)

Section InvariantBasics.
Context {Doc Aw T : Type}.
Context {docEngine : DocEngine Doc}.
Context {awarenessStore : AwarenessStore Aw}.
Context {transportImpl : Transport T}.
Implicit Types p q r : @GenericProvider Doc Aw T.

Lemma preserves_refl (I : @GenericProvider Doc Aw T -> Prop) p :
  preserves I p p.
Proof. exact (fun H => H). Qed.

Lemma preserves_trans (I : @GenericProvider Doc Aw T -> Prop) p q r :
  preserves I p q -> preserves I q r -> preserves I p r.
Proof. unfold preserves. auto. Qed.

Lemma within_limit_keeps l p q :
  writes l p q ->
  touches l F_syncRequestTimes = false ->
  preserves within_limit p q.
Proof.
  intros Hw Ht. unfold preserves, within_limit.
  rewrite (keeps_syncRequestTimes _ _ _ Hw Ht),
    (keeps_maxSyncRequestsPerWindow _ _ _ Hw).
  exact (fun H => H).
Qed.

Lemma filter_length_le {A} (f : A -> bool) (l : list A) :
  (length (List.filter f l) <= length l)%nat.
Proof.
  induction l as [|a l IH]; cbn [List.filter length]; [lia|].
  destruct (f a); cbn [length]; lia.
Qed.

Lemma _sendSyncStep1_within_limit now p :
  preserves within_limit p (_sendSyncStep1 now p).
Proof.
  unfold preserves, within_limit. intros H.
  pose proof (filter_length_le (fun t => now - t <? _syncRequestWindowMs p)
                (_syncRequestTimes p)) as Hf.
  fold (in_window now p) in Hf.
  destruct (Z_le_gt_dec (_maxSyncRequestsPerWindow p)
              (Z.of_nat (length (in_window now p)))) as [Hle|Hgt].
  - rewrite _sendSyncStep1_dropped by exact Hle. simp. lia.
  - rewrite _sendSyncStep1_passed by lia. simp.
    rewrite length_app. cbn [length]. lia.
Qed.

Lemma silent_keeps p0 l p q :
  writes l p q ->
  touches l F_transport = false ->
  touches l F_transportCalls = false ->
  preserves (silent p0) p q.
Proof.
  intros Hw Ht Hc. unfold preserves, silent.
  rewrite (keeps_transport _ _ _ Hw Ht), (keeps_transportCalls _ _ _ Hw Hc).
  exact (fun H => H).
Qed.

Lemma _send_silent p0 data p :
  isConnected (transport p0) = false ->
  preserves (silent p0) p (_send data p).
Proof.
  intros Hoff [Ht Hc]. unfold _send. rewrite Ht, Hoff. split; assumption.
Qed.

End InvariantBasics.

Create HintDb preserved discriminated.
#[export] Hint Constants Opaque : preserved.
#[export] Hint Resolve _sendSyncStep1_within_limit _send_silent : preserved.

(** Carry an invariant through an operation, one call at a time. *)
Ltac carry :=
  lazymatch goal with
  | |- preserves _ ?p ?p => apply preserves_refl
  | |- preserves _ _ (if ?c then _ else _) => destruct c eqn:?
  | |- preserves _ _ (match ?x with _ => _ end) => destruct x eqn:?
  | |- preserves ?I ?p (?f ?q) =>
      apply (preserves_trans I p q (f q));
      [| solve
           [ eauto 2 with preserved nocore
           | first [ eapply within_limit_keeps | eapply silent_keeps ];
             [ solve [eauto 1 with footprint nocore] | reflexivity .. ] ] ]
  end.

Ltac carried := intros; cbv zeta; repeat carry.

Section Invariants.
Context {Doc Aw T : Type}.
Context {docEngine : DocEngine Doc}.
Context {awarenessStore : AwarenessStore Aw}.
Context {transportImpl : Transport T}.
Implicit Types p q r : @GenericProvider Doc Aw T.
Implicit Types ev : @Event T.

(** ** The window of the rate limiter *)

Lemma connect_resolved_within_limit now p :
  preserves within_limit p (connect_resolved now p).
Proof. unfold connect_resolved. carried. Qed.

Hint Resolve connect_resolved_within_limit : preserved.

Lemma after_connect_within_limit now config p :
  preserves within_limit p (after_connect now config p).
Proof.
  unfold after_connect, connect.
  destruct (_destroying p); cbn [fst]; [apply preserves_refl|].
  cbv zeta. destruct (transport_connect _ _) as [t [e|]]; cbn [fst];
    carried.
Qed.

Lemma syncNow_within_limit now p :
  preserves within_limit p (syncNow now p).
Proof. unfold syncNow. carried. Qed.

Lemma timer_fires_within_limit id now p :
  preserves within_limit p (timer_fires id now p).
Proof.
  unfold timer_fires, periodic_sync_callback, batch_flush_callback,
    backoff_resync_callback.
  carried.
Qed.

Lemma step_within_limit p ev : preserves within_limit p (step p ev).
Proof.
  destruct ev; cbn [step].
  - apply after_connect_within_limit.
  - carried.
  - carried.
  - apply syncNow_within_limit.
  - carried.
  - apply timer_fires_within_limit.
  - carried.
  - carried.
  - carried.
  - carried.
  - carried.
  - carried.
Qed.

Lemma step_maxSyncRequestsPerWindow p ev :
  _maxSyncRequestsPerWindow (step p ev) = _maxSyncRequestsPerWindow p.
Proof.
  destruct ev; cbn [step]; cbv zeta; split_ifs; simp; reflexivity.
Qed.

(** The rate limiter never remembers more than 20 request times, whatever
    happens to the instance and however far apart the requests are. *)
Theorem request_window_is_bounded d t (options : Options Aw)
  (evs : list (@Event T)) :
  let p := run (new_GenericProvider d t options) evs in
  within_limit p /\
  _maxSyncRequestsPerWindow p = 20 /\
  (length (_syncRequestTimes p) <= 20)%nat.
Proof.
  cbv zeta.
  assert (H : forall p, within_limit p /\ _maxSyncRequestsPerWindow p = 20 ->
    within_limit (run p evs) /\ _maxSyncRequestsPerWindow (run p evs) = 20).
  { induction evs as [|ev evs IH]; intros p Hp; cbn [run fold_left].
    - exact Hp.
    - apply IH. destruct Hp as [Hw Hm]. split.
      + apply step_within_limit, Hw.
      + rewrite step_maxSyncRequestsPerWindow. exact Hm. }
  destruct (H (new_GenericProvider d t options)) as [Hw Hm].
  { split; [|reflexivity]. unfold within_limit. cbn. lia. }
  split; [exact Hw|]. split; [exact Hm|].
  unfold within_limit in Hw. rewrite Hm in Hw. lia.
Qed.

(** ** A transport that is not connected *)

Lemma _sendSyncStep1_silent p0 now p :
  isConnected (transport p0) = false ->
  preserves (silent p0) p (_sendSyncStep1 now p).
Proof. unfold _sendSyncStep1. carried. Qed.

Lemma _broadcastAwareness_silent p0 clients p :
  isConnected (transport p0) = false ->
  preserves (silent p0) p (_broadcastAwareness clients p).
Proof. unfold _broadcastAwareness. carried. Qed.

Lemma send_reply_silent p0 reply p :
  isConnected (transport p0) = false ->
  preserves (silent p0) p (send_reply reply p).
Proof. unfold send_reply. carried. Qed.

Hint Resolve _sendSyncStep1_silent _broadcastAwareness_silent
  send_reply_silent : preserved.

Lemma awareness_changed_silent p0 res p :
  isConnected (transport p0) = false ->
  preserves (silent p0) p (awareness_changed res p).
Proof. unfold awareness_changed, awarenessUpdateHandler. carried. Qed.

Hint Resolve awareness_changed_silent : preserved.

Lemma _handleIncomingMessage_silent p0 now data p :
  isConnected (transport p0) = false ->
  preserves (silent p0) p (_handleIncomingMessage now data p).
Proof. unfold _handleIncomingMessage. carried. Qed.

Lemma syncNow_silent p0 now p :
  isConnected (transport p0) = false ->
  preserves (silent p0) p (syncNow now p).
Proof.
  intros Hoff Hs. pose proof Hs as [Ht _]. revert Hs.
  unfold syncNow. rewrite Ht, Hoff. cbn [negb].
  change (preserves (silent p0) p (console_log WarnCannotSync p)).
  carried.
Qed.

Lemma publish_silent p0 topic message p :
  isConnected (transport p0) = false ->
  preserves (silent p0) p (publish topic message p).
Proof. unfold publish, _sendPubSub. carried. Qed.

(** While the transport reports that it is not connected, an inbound frame,
    [syncNow], [publish], a change of the local presence and the callbacks of
    the periodic and the backoff timer call no method of the transport. *)
Theorem not_connected_no_transport_call now data topic message state p :
  isConnected (transport p) = false ->
  transportCalls (_handleIncomingMessage now data p) = transportCalls p /\
  transportCalls (syncNow now p) = transportCalls p /\
  transportCalls (publish topic message p) = transportCalls p /\
  transportCalls (step p (EvLocalState state)) = transportCalls p /\
  transportCalls (periodic_sync_callback now p) = transportCalls p /\
  transportCalls (backoff_resync_callback now p) = transportCalls p.
Proof.
  intros Hoff.
  assert (Hs : silent p p) by (split; reflexivity).
  split; [apply (_handleIncomingMessage_silent p now data p Hoff Hs)|].
  split; [apply (syncNow_silent p now p Hoff Hs)|].
  split; [apply (publish_silent p topic message p Hoff Hs)|].
  split; [apply (awareness_changed_silent p _ p Hoff Hs)|].
  split.
  - unfold periodic_sync_callback. rewrite Hoff. reflexivity.
  - apply (_sendSyncStep1_silent p now p Hoff Hs).
Qed.

End Invariants.

(** * Local updates, batching and timers *)

Section LocalUpdates.
Context {Doc Aw T : Type}.
Context {docEngine : DocEngine Doc}.
Context {awarenessStore : AwarenessStore Aw}.
Context {transportImpl : Transport T}.
Implicit Types p q r : @GenericProvider Doc Aw T.
Implicit Types ev : @Event T.


(** In immediate mode a local update is handed to the transport at once, as
    one frame that carries the digest of the document after the update;
    the provider does not ask whether the transport is connected. *)
Theorem local_update_sent_at_once update p :
  _updateHandler p = true ->
  _batchUpdates p <= 0 ->
  let p' := step p (EvDocUpdate update) in
  doc p' = applyUpdate (doc p) update /\
  sent p' =
    sent p ++
    [if _verifyUpdates p
     then
       FSyncVerified (_localSeqNum p) (clientID (applyUpdate (doc p) update))
         (YjsUpdate update)
         (Some (computeDocHash (applyUpdate (doc p) update)))
     else FSync (YjsUpdate update)] /\
  _pendingUpdate p' = _pendingUpdate p /\
  timers p' = timers p.
Proof.
  intros Hreg Hb. cbv zeta. cbn [step]. cbv zeta. simp. rewrite Hreg.
  unfold updateHandler. simp.
  assert (Hm : (0 <? _batchUpdates p) = false) by (apply Z.ltb_ge; exact Hb).
  rewrite Hm. split; [simp; reflexivity|].
  split; [|split; simp; reflexivity].
  rewrite _sendUpdate_sent. unfold update_frame. simp. reflexivity.
Qed.

(** An update that arrives from a peer is merged and not sent back: the
    handler of local updates ignores what the provider itself applied. *)
Theorem remote_update_is_not_echoed now update p :
  let p' := _handleIncomingMessage now (FSync (YjsUpdate update)) p in
  doc p' = applyUpdate (doc p) update /\
  transportCalls p' = transportCalls p /\
  _pendingUpdate p' = _pendingUpdate p /\
  _localSeqNum p' = _localSeqNum p /\
  timers p' = timers p.
Proof.
  cbv zeta. unfold _handleIncomingMessage. cbn [readSyncMessage]. cbv zeta.
  unfold send_reply, synced_after_step2.
  change (messageYjsUpdate =? messageYjsSyncStep2) with false.
  cbn [andb]. repeat split; simp; reflexivity.
Qed.



Lemma find_fresh (l : list Timer) n id :
  Forall (fun t => timer_id t < n) l -> n <= id ->
  List.find (fun t => timer_id t =? id) l = None.
Proof.
  intros H Hle. induction H as [|t l Ht _ IH]; cbn [List.find];
    [reflexivity|].
  replace (timer_id t =? id) with false by (symmetry; apply Z.eqb_neq; lia).
  exact IH.
Qed.





(** The callback of the periodic resync leaves its interval pending; it makes
    a resync request when the transport is connected and the instance is not
    being destroyed, and does nothing otherwise. *)
Theorem periodic_timer_keeps_running id now p t :
  pending_timer id p = Some t ->
  timer_kind t = PeriodicSync ->
  let p' := timer_fires id now p in
  timers p' = timers p /\
  sent p' =
    sent p ++
    (if isConnected (transport p) && negb (_destroying p)
     then
       if _maxSyncRequestsPerWindow p <=? Z.of_nat (length (in_window now p))
       then []
       else [resync_request p]
     else []).
Proof.
  intros Hfind Hkind. cbv zeta. unfold timer_fires. rewrite Hfind, Hkind.
  unfold periodic_sync_callback.
  destruct (isConnected (transport p)) eqn:Hc; cbn [andb];
    [destruct (_destroying p); cbn [negb]|].
  - split; [reflexivity|]. rewrite app_nil_r. reflexivity.
  - split; [simp; reflexivity|].
    rewrite _sendSyncStep1_sent, Hc. reflexivity.
  - split; [reflexivity|]. rewrite app_nil_r. reflexivity.
Qed.

(** [publish] hands one pub/sub frame to the transport when it is connected
    and logs a warning otherwise; in neither case does it call a subscriber
    of the publishing instance. *)
Theorem publish_sends_or_warns topic message p :
  let p' := publish topic message p in
  sent p' =
    sent p ++
    (if isConnected (transport p) then [FPubSub topic (Some message)] else []) /\
  console p' =
    console p ++
    (if isConnected (transport p) then [] else [WarnPubSubNotConnected]) /\
  callbackCalls p' = callbackCalls p /\
  pubsub p' = pubsub p.
Proof.
  cbv zeta. unfold publish, _sendPubSub.
  destruct (isConnected (transport p)) eqn:Hc; cbn [negb].
  - rewrite _send_sent, Hc. repeat split; simp; rewrite ?app_nil_r;
      reflexivity.
  - split; [rewrite app_nil_r; apply sent_same; simp; reflexivity|].
    split; [apply console_log_console|]. split; simp; reflexivity.
Qed.

End LocalUpdates.

(** * The provider at work *)

Import Sample.

(** C1, as first stated, fails on a frame that the sequence check skips.
    Replica 9 has sent number 0, and the counter stands at 1.  The same
    number arrives again: with the digest that the document would have after
    the merge, the counter is not reset; with a digest that differs, no
    resync is scheduled and the counter does not move. *)
Lemma duplicate_frame_skips_digest_check :
  computeDocHash (applyUpdate (doc Sample.diverged) [4; 5]) = 3999 /\
  lastSeq Sample.diverged 9 = 0 /\
  _hashMismatchCount Sample.diverged = 1 /\
  _hashMismatchCount
    (_handleIncomingMessage 100600 Sample.resent_matching Sample.diverged)
    <> 0 /\
  timers
    (_handleIncomingMessage 100600 Sample.resent_differing Sample.diverged) =
    timers Sample.diverged /\
  _hashMismatchCount
    (_handleIncomingMessage 100600 Sample.resent_differing Sample.diverged)
    = 1.
Proof. vm_compute. repeat split. discriminate. Qed.

Lemma backoff_on_accepted_frame_witness :
  lastSeq Sample.joined 9 < 0 /\
  readSyncMessage (doc Sample.joined) (YjsUpdate [4; 5]) =
    Some (messageYjsUpdate, applyUpdate (doc Sample.joined) [4; 5], None) /\
  computeDocHash (applyUpdate (doc Sample.joined) [4; 5]) <> 123 /\
  _hashMismatchCount Sample.diverged = 1 /\
  computeDocHash (applyUpdate (doc Sample.joined) [4; 5]) = 3999 /\
  _hashMismatchCount
    (_handleIncomingMessage 100500
       (FSyncVerified 0 9 (YjsUpdate [4; 5]) (Some 3999)) Sample.joined) = 0.
Proof.
  assert (H1 : lastSeq Sample.joined 9 < 0) by (vm_compute; reflexivity).
  assert (H2 : readSyncMessage (doc Sample.joined) (YjsUpdate [4; 5]) =
               Some (messageYjsUpdate,
                     applyUpdate (doc Sample.joined) [4; 5], None))
    by reflexivity.
  assert (H3 : computeDocHash (applyUpdate (doc Sample.joined) [4; 5]) <> 123)
    by (vm_compute; discriminate).
  assert (H4 : computeDocHash (applyUpdate (doc Sample.joined) [4; 5]) = 3999)
    by (vm_compute; reflexivity).
  split; [exact H1|]. split; [exact H2|]. split; [exact H3|].
  split; [|split; [exact H4|]].
  - destruct (backoff_on_accepted_frame 100500 0 9 (YjsUpdate [4; 5]) 123
                Sample.joined _ _ _ H1 H2) as [Hm _].
    destruct (Hm H3) as (Hc & _). exact Hc.
  - destruct (backoff_on_accepted_frame 100500 0 9 (YjsUpdate [4; 5]) 3999
                Sample.joined _ _ _ H1 H2) as [_ He].
    destruct (He H4) as (Hc & _). exact Hc.
Defined.

(** Seven mismatches in a row, 100 ms apart. *)
Lemma backoff_burst_delays :
  map timer_delay
    (List.filter
       (fun t => match timer_kind t with BackoffResync => true | _ => false end)
       (timers
          (run Sample.joined
             (map
                (fun i =>
                   EvMessage (100500 + 100 * i)
                     (FSyncVerified i 9 (YjsUpdate [4; 5]) (Some 123)))
                [0; 1; 2; 3; 4; 5; 6])))) =
  [10; 50; 250; 1250; 6250; 10000; 10000].
Proof. vm_compute. reflexivity. Qed.



(** C3, as first stated, fails twice.  The backoff timer of a provider whose
    client went offline fires: the limit is not reached, the request is
    recorded, and no frame reaches the transport.  And with twenty requests
    recorded exactly 10000 ms ago, none of them older than 10000 ms, the
    request is not dropped: all twenty are removed and a frame is sent. *)
Lemma resync_request_not_as_stated :
  (pending_timer 2 Sample.cut_off =
     Some {| timer_id := 2; timer_kind := BackoffResync; timer_delay := 10 |} /\
   Z.of_nat (length (in_window 100510 Sample.cut_off)) <
     _maxSyncRequestsPerWindow Sample.cut_off /\
   _syncRequestTimes (timer_fires 2 100510 Sample.cut_off) =
     _syncRequestTimes Sample.cut_off ++ [100510] /\
   sent (timer_fires 2 100510 Sample.cut_off) = sent Sample.cut_off) /\
  (length (_syncRequestTimes Sample.saturated) = 20%nat /\
   Forall (fun t => 110000 - t = 10000) (_syncRequestTimes Sample.saturated) /\
   _syncRequestTimes (_sendSyncStep1 110000 Sample.saturated) = [110000] /\
   sent (_sendSyncStep1 110000 Sample.saturated) =
     sent Sample.saturated ++ [resync_request Sample.saturated]).
Proof.
  split.
  - vm_compute. repeat split.
  - assert (Ht : _syncRequestTimes Sample.saturated = repeat 100000 20)
      by (vm_compute; reflexivity).
    rewrite Ht. split; [reflexivity|]. split.
    + cbn [repeat]. repeat constructor.
    + split; vm_compute; reflexivity.
Qed.

Lemma resync_rate_limit_witness :
  Z.of_nat (length (in_window 100000 Sample.saturated)) = 20 /\
  sent (_sendSyncStep1 100000 Sample.saturated) = sent Sample.saturated /\
  _syncRequestTimes (_sendSyncStep1 100000 Sample.fresh) = [100000] /\
  length
    (sent
       (Nat.iter 25 (_sendSyncStep1 100000)
          (step Sample.fresh (EvTransport (transport Sample.joined))))) =
  20%nat.
Proof.
  assert (H0 : Z.of_nat (length (in_window 100000 Sample.saturated)) = 20)
    by (vm_compute; reflexivity).
  split; [exact H0|]. split; [|split].
  - destruct (resync_rate_limit 100000 Sample.saturated)
      as (_ & Hdrop & _).
    destruct Hdrop as (_ & Hs & _); [vm_compute; discriminate | exact Hs].
  - destruct (resync_rate_limit 100000 Sample.fresh) as (_ & _ & Hpass & _).
    destruct Hpass as (Ht & _); [vm_compute; reflexivity | exact Ht].
  - destruct
      (resync_rate_limit 100000
         (step Sample.fresh (EvTransport (transport Sample.joined))))
      as (_ & _ & _ & Hburst).
    destruct Hburst as (Hs & _);
      [ intros f t Ht; exact Ht
      | reflexivity | reflexivity | reflexivity | reflexivity | ].
    cbv zeta in Hs. rewrite Hs. reflexivity.
Defined.

Lemma synced_only_by_final_handshake_witness :
  _synced Sample.joined = false /\
  _synced (step Sample.joined (EvMessage 100200 (FSync (SyncStep2 [1; 2]))))
    = true /\
  (exists now data,
      @EvMessage Sample.Dummy 100200 (FSync (SyncStep2 [1; 2])) =
      EvMessage now data) /\
  _synced
    (_handleIncomingMessage 100300
       (FSyncVerified 0 9 (SyncStep2 [4; 5]) (Some 123)) Sample.joined) =
  false.
Proof.
  assert (H1 : _synced Sample.joined = false) by reflexivity.
  assert (H2 : _synced
                 (step Sample.joined
                    (EvMessage 100200 (FSync (SyncStep2 [1; 2])))) = true)
    by reflexivity.
  split; [exact H1|]. split; [exact H2|]. split.
  - destruct (synced_only_by_final_handshake Sample.joined) as [Honly _].
    destruct (Honly _ H1 H2) as (now & data & He & _).
    exists now, data. exact He.
  - destruct (synced_only_by_final_handshake Sample.joined) as [_ Hmis].
    rewrite (Hmis 100300 0 9 [4; 5] 123); [exact H1|].
    vm_compute. discriminate.
Defined.

(** C5 fails on the code.  A mismatch schedules a resync request after 10 ms;
    [disconnect], and [destroy] as well, clear the interval but leave that
    timer pending, and when it fires the request is recorded in the window
    of the rate limiter. *)
Lemma backoff_timer_survives_disconnect :
  timers Sample.diverged =
    [{| timer_id := 1; timer_kind := PeriodicSync; timer_delay := 5000 |};
     {| timer_id := 2; timer_kind := BackoffResync; timer_delay := 10 |}] /\
  timers (disconnect Sample.diverged) =
    [{| timer_id := 2; timer_kind := BackoffResync; timer_delay := 10 |}] /\
  timers (destroy Sample.diverged) =
    [{| timer_id := 2; timer_kind := BackoffResync; timer_delay := 10 |}] /\
  _syncRequestTimes (disconnect Sample.diverged) = [100000] /\
  _syncRequestTimes (timer_fires 2 100520 (disconnect Sample.diverged)) =
    [100000; 100520] /\
  _syncRequestTimes (timer_fires 2 100520 (destroy Sample.diverged)) =
    [100000; 100520].
Proof. vm_compute. repeat split. Qed.


Lemma connect_rejected_witness :
  _destroying Sample.stranded = false /\
  transport_connect Sample.lobby (transport Sample.stranded) =
    (Sample.down, Some (JsError "WebSocket connection failed")) /\
  snd (connect 100000 Sample.lobby Sample.stranded) =
    Threw (JsError "WebSocket connection failed") /\
  _status (fst (connect 100000 Sample.lobby Sample.stranded)) =
    Error (JsError "WebSocket connection failed").
Proof.
  assert (H1 : _destroying Sample.stranded = false) by reflexivity.
  assert (H2 : transport_connect Sample.lobby (transport Sample.stranded) =
               (Sample.down, Some (JsError "WebSocket connection failed")))
    by reflexivity.
  split; [exact H1|]. split; [exact H2|].
  destruct (connect_rejected 100000 Sample.lobby _ _ _ H1 H2)
    as (Hr & Hst & _).
  split; [exact Hr | exact Hst].
Defined.



Lemma synced_until_disconnect_witness :
  _synced Sample.handshaken = true /\
  _synced
    (run Sample.handshaken
       [EvMessage 100500 Sample.remote_update;
        EvMessage 100600 Sample.remote_update;
        EvMessage 100700 (FSyncVerified 5 9 (YjsUpdate [6]) (Some 0));
        EvSyncNow 100800]) = true.
Proof.
  assert (H1 : _synced Sample.handshaken = true) by reflexivity.
  split; [exact H1|].
  apply (proj1 (synced_until_disconnect Sample.handshaken _) H1).
  repeat constructor; discriminate.
Defined.

Lemma local_sequence_numbers_witness :
  _verifyUpdates Sample.joined = true /\
  _localSeqNum (_sendUpdate [8] Sample.joined) = 1 /\
  verifiedSeqNums
    (sent
       (run Sample.fresh
          [EvConnect 100000 Sample.lobby; EvDocUpdate [8]; EvDisconnect;
           EvDocUpdate [9]; EvConnect 200000 Sample.lobby; EvSyncNow 200100]))
  = [0; 1; 2].
Proof.
  assert (H1 : _verifyUpdates Sample.joined = true) by reflexivity.
  split; [exact H1|]. split.
  - destruct (local_sequence_numbers Sample.empty_doc Sample.online
                Sample.no_options []) as (_ & _ & _ & _ & Hsend).
    destruct (Hsend Sample.joined [8] H1) as [_ Hl]. rewrite Hl. reflexivity.
  - destruct (local_sequence_numbers Sample.empty_doc Sample.online
                Sample.no_options
                [EvConnect 100000 Sample.lobby; EvDocUpdate [8]; EvDisconnect;
                 EvDocUpdate [9]; EvConnect 200000 Sample.lobby;
                 EvSyncNow 200100]) as (Hseq & _).
    cbv zeta in Hseq. unfold Sample.fresh. rewrite Hseq. vm_compute.
    reflexivity.
Defined.

(** ** The further properties, on the sample provider *)

Lemma duplicate_frame_gets_no_reply_witness :
  0 <= lastSeq Sample.diverged 9 /\
  sent
    (_handleIncomingMessage 100700
       (FSyncVerified 0 9 (YjsUpdate [6]) (Some 0)) Sample.diverged) =
    sent Sample.diverged /\
  doc
    (_handleIncomingMessage 100700
       (FSyncVerified 0 9 (YjsUpdate [6]) (Some 0)) Sample.diverged) =
    doc Sample.diverged.
Proof.
  assert (H0 : lastSeq Sample.diverged 9 = 0) by (vm_compute; reflexivity).
  assert (H : 0 <= lastSeq Sample.diverged 9) by (rewrite H0; lia).
  split; [exact H|].
  destruct (duplicate_frame_gets_no_reply 100700 0 9 (YjsUpdate [6]) (Some 0)
              Sample.diverged H) as (Hs & Hd & _).
  split; [exact Hs | exact Hd].
Defined.

Lemma tracker_is_per_sender_witness :
  4 <> 9 /\
  lastSeq
    (_handleIncomingMessage 100700
       (FSyncVerified 3 9 (YjsUpdate [6]) (Some 0)) Sample.diverged) 4 =
    lastSeq Sample.diverged 4.
Proof.
  assert (H : 4 <> 9) by lia.
  split; [exact H|].
  exact (tracker_is_per_sender 100700 3 9 (YjsUpdate [6]) (Some 0)
           Sample.diverged 4 H).
Defined.

Lemma remote_presence_is_rebroadcast_witness :
  applyAwarenessUpdate (awareness Sample.joined) [3; 1] =
    ({| Sample.present := [7; 3]; Sample.me := 7 |}, [3]) /\
  _awarenessUpdateHandler Sample.joined = true /\
  sent (_handleIncomingMessage 100300 (FAwareness [3; 1]) Sample.joined) =
    sent Sample.joined ++ [FAwareness [3; 1]].
Proof.
  assert (H1 : applyAwarenessUpdate (awareness Sample.joined) [3; 1] =
               ({| Sample.present := [7; 3]; Sample.me := 7 |}, [3]))
    by (vm_compute; reflexivity).
  assert (H2 : _awarenessUpdateHandler Sample.joined = true)
    by (vm_compute; reflexivity).
  split; [exact H1|]. split; [exact H2|].
  destruct (remote_presence_is_rebroadcast 100300 [3; 1] Sample.joined
              _ 3 [] H1 H2) as (_ & Hs).
  eapply eq_trans; [exact Hs|]. vm_compute. reflexivity.
Defined.

Lemma connect_resolved_arms_interval_witness :
  _destroying Sample.fresh = false /\
  transport_connect Sample.lobby (transport Sample.fresh) =
    ({| Sample._isConnected := true; Sample.clientOffline := false;
        Sample.messageCallback := false; Sample.unreachable := None |},
     None) /\
  _status Sample.joined = Connected /\
  timers Sample.joined =
    [{| timer_id := 1; timer_kind := PeriodicSync; timer_delay := 5000 |}].
Proof.
  assert (H1 : _destroying Sample.fresh = false) by reflexivity.
  assert (H2 : transport_connect Sample.lobby (transport Sample.fresh) =
               ({| Sample._isConnected := true; Sample.clientOffline := false;
                   Sample.messageCallback := false;
                   Sample.unreachable := None |}, None))
    by reflexivity.
  split; [exact H1|]. split; [exact H2|].
  destruct (connect_resolved_arms_interval 100000 Sample.lobby Sample.fresh
              _ H1 H2) as (_ & Hst & _ & _ & _ & Ht & _).
  split; [exact Hst|]. exact Ht.
Defined.

Lemma not_connected_no_transport_call_witness :
  isConnected (transport Sample.cut_off) = false /\
  transportCalls
    (_handleIncomingMessage 100900 (FSync (SyncStep1 [])) Sample.cut_off) =
    transportCalls Sample.cut_off /\
  transportCalls (syncNow 100900 Sample.cut_off) =
    transportCalls Sample.cut_off.
Proof.
  assert (H : isConnected (transport Sample.cut_off) = false)
    by (vm_compute; reflexivity).
  split; [exact H|].
  destruct (not_connected_no_transport_call 100900 (FSync (SyncStep1 []))
              "chat" "hi"%string None Sample.cut_off H) as (Hm & Hs & _).
  split; [exact Hm | exact Hs].
Defined.

Lemma local_update_sent_at_once_witness :
  _updateHandler Sample.joined = true /\
  _batchUpdates Sample.joined <= 0 /\
  sent (step Sample.joined (@EvDocUpdate Sample.Dummy [4; 5])) =
    sent Sample.joined ++
    [FSyncVerified 0 7 (YjsUpdate [4; 5]) (Some 3999)].
Proof.
  assert (H1 : _updateHandler Sample.joined = true)
    by (vm_compute; reflexivity).
  assert (H0 : _batchUpdates Sample.joined = 0) by (vm_compute; reflexivity).
  assert (H2 : _batchUpdates Sample.joined <= 0) by (rewrite H0; lia).
  split; [exact H1|]. split; [exact H2|].
  destruct (local_update_sent_at_once [4; 5] Sample.joined H1 H2)
    as (_ & Hs & _).
  eapply eq_trans; [exact Hs|]. vm_compute. reflexivity.
Defined.


Lemma periodic_timer_keeps_running_witness :
  pending_timer 1 Sample.joined =
    Some {| timer_id := 1; timer_kind := PeriodicSync; timer_delay := 5000 |} /\
  timers (timer_fires 1 105000 Sample.joined) = timers Sample.joined.
Proof.
  assert (H1 : pending_timer 1 Sample.joined =
               Some {| timer_id := 1; timer_kind := PeriodicSync;
                       timer_delay := 5000 |}) by (vm_compute; reflexivity).
  split; [exact H1|].
  destruct (periodic_timer_keeps_running 1 105000 Sample.joined _ H1 eq_refl)
    as (Ht & _).
  exact Ht.
Defined.
